(** * Order-summary core of the delivery-preference backend

    Shallow embedding of [backend/internal/handler/summary.go]:
    [orderDescription], [generateOrderSummary], [callOpenAI], [callGemini],
    the JSON shape of [OrderSummaryResponse] and the [OrderSummary] handler;
    of [GetOrder], [orderToResponse], [validateOrder] and [escapeJSON] from
    [orders.go]; of [Login]; and of the [RequireAuth] middleware. The order
    and user tables, the JWT parser, bcrypt and the clock are arguments.

    Go strings are modelled by their rune decoding ([list Z]); every text
    the adapters return comes out of [encoding/json], whose strings are
    valid UTF-8, so the rune view loses nothing the code observes. [len]
    on a string is a byte count and is computed from the runes' UTF-8
    widths. The environment ([os.Getenv]) and the remote peers
    ([http.Client.Do] together with [encoding/json] decoding of the reply)
    are an explicit [World] argument, so every theorem quantifies over
    every configuration and every network outcome. *)

From Stdlib Require Import ZArith List Bool String Ascii Lia.
From Stdlib Require Import Numbers.DecimalString.
Import ListNotations.
Open Scope Z_scope.

(* ------------------------------------------------------------------ *)
(** ** Go strings as rune sequences *)

Module GoString.

Definition rune := Z.
Definition t := list rune.

(** A Go string literal (all literals of the code are ASCII). *)
Definition u (s : string) : t :=
  map (fun a => Z.of_nat (nat_of_ascii a)) (list_ascii_of_string s).

Definition eqb (a b : t) : bool :=
  if list_eq_dec Z.eq_dec a b then true else false.

(** [s == ""] *)
Definition is_empty (s : t) : bool :=
  match s with [] => true | _ => false end.

(** [unicode.IsSpace]. *)
Definition is_space (r : rune) : bool :=
  if r <=? 255 then
    (r =? 9) || (r =? 10) || (r =? 11) || (r =? 12) || (r =? 13)
    || (r =? 32) || (r =? 133) || (r =? 160)
  else
    (r =? 5760) || ((8192 <=? r) && (r <=? 8202))
    || (r =? 8232) || (r =? 8233) || (r =? 8239) || (r =? 8287)
    || (r =? 12288).

Fixpoint trim_left (s : t) : t :=
  match s with
  | [] => []
  | r :: s' => if is_space r then trim_left s' else s
  end.

Fixpoint trim_right (s : t) : t :=
  match s with
  | [] => []
  | r :: s' =>
      match trim_right s' with
      | [] => if is_space r then [] else [r]
      | s'' => r :: s''
      end
  end.

(** [strings.TrimSpace] *)
Definition TrimSpace (s : t) : t := trim_right (trim_left s).

Fixpoint prefixb (p s : t) : bool :=
  match p, s with
  | [], _ => true
  | _ :: _, [] => false
  | a :: p', b :: s' => (a =? b) && prefixb p' s'
  end.

Fixpoint replace_all_fuel (fuel : nat) (old new s : t) : t :=
  match fuel with
  | O => s
  | S f =>
      match s with
      | [] => []
      | r :: s' =>
          if prefixb old s
          then new ++ replace_all_fuel f old new (skipn (List.length old) s)
          else r :: replace_all_fuel f old new s'
      end
  end.

(** [strings.ReplaceAll(s, old, new)]; an empty [old] matches before
    every rune and at the end. *)
Definition ReplaceAll (s old new : t) : t :=
  match old with
  | [] => new ++ flat_map (fun r => r :: new) s
  | _ => replace_all_fuel (List.length s) old new s
  end.

(** [strconv.Itoa] *)
Definition Itoa (z : Z) : t := u (NilEmpty.string_of_int (Z.to_int z)).

(** [len(s)]: the number of bytes of the UTF-8 encoding. *)
Definition rune_len (r : rune) : Z :=
  if r <? 128 then 1 else if r <? 2048 then 2
  else if r <? 65536 then 3 else 4.

Definition byte_len (s : t) : Z := fold_right (fun r n => rune_len r + n) 0 s.

End GoString.

Import GoString.
Definition gostring := GoString.t.

(* ------------------------------------------------------------------ *)
(** ** [time.Time] and [Format(time.RFC3339)] *)

Module GoTime.

(** A [time.Time] by its calendar fields in its own location, with the
    location's offset east of UTC in seconds. *)
Record Time := mkTime {
  year : Z; month : Z; day : Z;
  hour : Z; minute : Z; second : Z;
  offset : Z
}.

(** [appendInt(b, x, width)] of package time: sign, then the magnitude
    zero-padded to [width] digits. *)
Definition appendInt (x : Z) (width : nat) : gostring :=
  let ds := Itoa (Z.abs x) in
  (if x <? 0 then u "-" else [])
  ++ repeat (Z.of_nat (nat_of_ascii "0"%char)) (width - List.length ds) ++ ds.

(** Layout ["Z07:00"]: [Z] for UTC, else the signed offset in hours and
    minutes ([offset / 60] truncates, as Go's division does). *)
Definition zone_iso8601_colon (off : Z) : gostring :=
  if off =? 0 then u "Z"
  else
    let zone := Z.quot off 60 in
    let '(sign, zone) := if zone <? 0 then (u "-", - zone) else (u "+", zone) in
    sign ++ appendInt (Z.quot zone 60) 2 ++ u ":" ++ appendInt (Z.rem zone 60) 2.

(** [t.Format(time.RFC3339)], layout ["2006-01-02T15:04:05Z07:00"]. *)
Definition FormatRFC3339 (tm : Time) : gostring :=
  appendInt (year tm) 4 ++ u "-" ++ appendInt (month tm) 2 ++ u "-"
  ++ appendInt (day tm) 2 ++ u "T" ++ appendInt (hour tm) 2 ++ u ":"
  ++ appendInt (minute tm) 2 ++ u ":" ++ appendInt (second tm) 2
  ++ zone_iso8601_colon (offset tm).

End GoTime.

Import GoTime.

(* ------------------------------------------------------------------ *)
(** ** [orderDescription] *)

(** [sql.NullString] and [sql.NullTime]. *)
Record NullString := mkNullString { ns_String : gostring; ns_Valid : bool }.
Record NullTime := mkNullTime { nt_Time : Time; nt_Valid : bool }.

(** [orderDescription]: the [strings.Builder] writes, in order. *)
Definition orderDescription (id : Z) (preference : gostring)
    (address : NullString) (pickupTime : NullTime) (createdAt : Time)
    : gostring :=
  u "Order number: " ++ Itoa id
  ++ u ". Preference: " ++ ReplaceAll preference (u "_") (u " ")
  ++ (if ns_Valid address && negb (is_empty (ns_String address))
      then u ". Address: " ++ ns_String address
      else u ". Address: (none)")
  ++ (if nt_Valid pickupTime
      then u ". Pickup time: " ++ FormatRFC3339 (nt_Time pickupTime)
      else u ". Pickup time: (none)")
  ++ u ". Creation date: " ++ FormatRFC3339 createdAt.

(* ------------------------------------------------------------------ *)
(** ** Wire types of the two providers *)

(** OpenAI chat-completions request, the anonymous struct of [callOpenAI]. *)
Record OpenAIMessage := mkOpenAIMessage { Role : gostring; Content : gostring }.
Record OpenAIChatRequest := mkOpenAIChatRequest {
  Model : gostring; Messages : list OpenAIMessage; MaxTokens : Z }.

(** The [errBody] struct of the non-200 branch. *)
Record OpenAIErrorBody := mkOpenAIErrorBody { oe_Message : gostring; oe_Type : gostring }.
(** The [out] struct of the 200 branch. *)
Record OpenAIChoice := mkOpenAIChoice { choice_Content : gostring }.
Record OpenAIChatResponse := mkOpenAIChatResponse { Choices : list OpenAIChoice }.

Record GeminiPart := mkGeminiPart { Text : gostring }.
Record GeminiContentItem := mkGeminiContentItem { item_Parts : list GeminiPart }.
Record GeminiGenerationConfig := mkGeminiGenerationConfig { MaxOutputTokens : Z }.
Record GeminiGenerateContentRequest := mkGeminiGenerateContentRequest {
  Contents : list GeminiContentItem;
  GenerationConfig : option GeminiGenerationConfig }.

Record GeminiContent := mkGeminiContent { Parts : list GeminiPart }.
Record GeminiCandidate := mkGeminiCandidate { cand_Content : GeminiContent }.
Record GeminiAPIError := mkGeminiAPIError {
  ae_Code : Z; ae_Message : gostring; ae_Status : gostring }.
Record GeminiGenerateContentResponse := mkGeminiGenerateContentResponse {
  Candidates : list GeminiCandidate;
  Error : option GeminiAPIError }.

(* ------------------------------------------------------------------ *)
(** ** The world: environment, HTTP client and JSON decoding *)

(** The value [json.Marshal] encodes as the request body. *)
Inductive RequestBody :=
| OpenAIBody (b : OpenAIChatRequest)
| GeminiBody (b : GeminiGenerateContentRequest).

(** An outgoing [http.Request] as sent by a [http.Client] with the given
    timeout (seconds). *)
Record Request := mkRequest {
  req_Method : gostring;
  req_URL : gostring;
  req_Header : list (gostring * gostring);
  req_Body : RequestBody;
  client_Timeout : Z }.

(** The outcome of [json.NewDecoder(body).Decode(&v)]: the decoded value or the
    error it returns. *)
Inductive Decoded (A : Type) :=
| DecodeOk (v : A)
| DecodeErr (e : gostring).
Arguments DecodeOk {A} v.
Arguments DecodeErr {A} e.

(** A response body, known through what [encoding/json] makes of it for each
    target the code decodes into. [as_openai_error] is the [errBody] value
    after a [Decode] whose error is discarded ([_ = ...]). *)
Record ResponseBody := mkResponseBody {
  as_openai_error : OpenAIErrorBody;
  as_openai : Decoded OpenAIChatResponse;
  as_gemini : Decoded GeminiGenerateContentResponse }.

Record Response := mkResponse {
  StatusCode : Z; Status : gostring; Body : ResponseBody }.

(** [client.Do(req)]: a transport error (refused, timeout, ...) or a response. *)
Inductive DoResult :=
| DoError (e : gostring)
| DoOk (r : Response).

Record World := mkWorld {
  Getenv : string -> gostring;          (** [os.Getenv]: [""] when unset *)
  RoundTrip : Request -> DoResult }.

(* ------------------------------------------------------------------ *)
(** ** A trace monad for the observable effects *)

Inductive Event :=
| EvLog (msg : gostring)        (** a [log.Printf] line *)
| EvRequest (r : Request).      (** a request handed to [client.Do] *)

Definition M (A : Type) : Type := (list Event * A)%type.

Definition ret {A} (a : A) : M A := ([], a).
Definition bind {A B} (m : M A) (f : A -> M B) : M B :=
  let '(tr1, a) := m in let '(tr2, b) := f a in (tr1 ++ tr2, b).
Definition logf (msg : gostring) : M unit := ([EvLog msg], tt).

Notation "x <- m ;; k" := (bind m (fun x => k))
  (at level 61, m at next level, right associativity).
Notation "m ;;; k" := (bind m (fun _ => k))
  (at level 61, right associativity).

Definition client_Do (w : World) (req : Request) : M DoResult :=
  ([EvRequest req], RoundTrip w req).

(** A Go [(string, error)] result; an error by its [Error()] text. *)
Definition Result : Type := (gostring * option gostring)%type.

(* ------------------------------------------------------------------ *)
(** ** Constants *)

Definition aiHTTPTimeout : Z := 45.
Definition aiMaxOutputTokens : Z := 512.
Definition fallbackSummaryText : gostring := u "Unable to generate Summary".
Definition openaiChatCompletionsURL : gostring :=
  u "https://api.openai.com/v1/chat/completions".
Definition geminiGenerateContentURL : gostring :=
  u "https://generativelanguage.googleapis.com/v1beta/models/gemini-2.5-flash:generateContent".

(* ------------------------------------------------------------------ *)
(** ** [callOpenAI] *)

Definition callOpenAI (w : World) (prompt apiKey : gostring) : M Result :=
  let apiKey := TrimSpace apiKey in
  if is_empty apiKey then ret ([], Some (u "openai: empty API key")) else
  let reqBody := mkOpenAIChatRequest (u "gpt-4o-mini")
                   [mkOpenAIMessage (u "user") prompt] aiMaxOutputTokens in
  (* [json.Marshal] of this struct and [http.NewRequest] on the constant
     URL do not fail. *)
  let req := mkRequest (u "POST") openaiChatCompletionsURL
               [(u "Authorization", u "Bearer " ++ apiKey);
                (u "Content-Type", u "application/json")]
               (OpenAIBody reqBody) aiHTTPTimeout in
  r <- client_Do w req ;;
  match r with
  | DoError e => ret ([], Some e)
  | DoOk resp =>
      if negb (StatusCode resp =? 200) then
        let errBody := as_openai_error (Body resp) in
        let msg := if is_empty (oe_Message errBody) then Status resp
                   else oe_Message errBody in
        ret ([], Some (u "openai " ++ Itoa (StatusCode resp) ++ u ": " ++ msg))
      else
        match as_openai (Body resp) with
        | DecodeErr e => ret ([], Some e)
        | DecodeOk out =>
            match Choices out with
            | [] => ret ([], None)
            | c :: _ => ret (TrimSpace (choice_Content c), None)
            end
        end
  end.

(* ------------------------------------------------------------------ *)
(** ** [http.NewRequest] on the Gemini URL *)

(** [url.Parse] cuts the fragment at the first ['#'], rejects an ASCII
    control byte before it, and rejects a malformed ['%'] escape in the
    fragment; the query is not validated. (Error texts are given without
    Go's quoting of the URL.) *)
Definition is_ctl (r : rune) : bool := (r <? 32) || (r =? 127).

Definition is_hex (r : rune) : bool :=
  ((48 <=? r) && (r <=? 57)) || ((65 <=? r) && (r <=? 70))
  || ((97 <=? r) && (r <=? 102)).

Fixpoint bad_escape (s : gostring) : bool :=
  match s with
  | [] => false
  | r :: s' =>
      if r =? 37 then
        match s' with
        | a :: b :: s'' => negb (is_hex a && is_hex b) || bad_escape s''
        | _ => true
        end
      else bad_escape s'
  end.

Fixpoint cut_hash (s : gostring) : gostring * gostring :=
  match s with
  | [] => ([], [])
  | r :: s' =>
      if r =? 35 then ([], s')
      else let '(a, b) := cut_hash s' in (r :: a, b)
  end.

Definition NewRequest_error (rawURL : gostring) : option gostring :=
  let '(base, frag) := cut_hash rawURL in
  if existsb is_ctl base
  then Some (u "parse " ++ base ++ u ": net/url: invalid control character in URL")
  else if bad_escape frag
  then Some (u "parse " ++ rawURL ++ u ": invalid URL escape")
  else None.

(* ------------------------------------------------------------------ *)
(** ** [callGemini] *)

(** The loop over [out.Candidates[0].Content.Parts] writing each non-empty
    [p.Text] into a [strings.Builder]. *)
Definition join_parts (ps : list GeminiPart) : gostring :=
  fold_left (fun full p => if is_empty (Text p) then full else full ++ Text p)
    ps [].

Definition callGemini (w : World) (prompt apiKey : gostring) : M Result :=
  let apiKey := TrimSpace apiKey in
  if is_empty apiKey then ret ([], Some (u "gemini: missing GEMINI_API_KEY")) else
  let reqBody := mkGeminiGenerateContentRequest
                   [mkGeminiContentItem [mkGeminiPart prompt]]
                   (Some (mkGeminiGenerationConfig aiMaxOutputTokens)) in
  (* [json.Marshal] of this struct does not fail. *)
  let url := geminiGenerateContentURL ++ u "?key=" ++ apiKey in
  match NewRequest_error url with
  | Some e => ret ([], Some e)
  | None =>
  let req := mkRequest (u "POST") url
               [(u "Content-Type", u "application/json")]
               (GeminiBody reqBody) aiHTTPTimeout in
  r <- client_Do w req ;;
  match r with
  | DoError e => ret ([], Some e)
  | DoOk resp =>
      match as_gemini (Body resp) with
      | DecodeErr e => ret ([], Some e)
      | DecodeOk out =>
          if negb (StatusCode resp =? 200) then
            let msg := match Error out with
                       | Some ae => if is_empty (ae_Message ae) then Status resp
                                    else ae_Message ae
                       | None => Status resp
                       end in
            ret ([], Some (u "gemini " ++ Itoa (StatusCode resp) ++ u ": " ++ msg))
          else
            match Candidates out with
            | [] => ret ([], None)
            | c :: _ =>
                match Parts (cand_Content c) with
                | [] => ret ([], None)
                | ps => ret (TrimSpace (join_parts ps), None)
                end
            end
      end
  end
  end.

(* ------------------------------------------------------------------ *)
(** ** [generateOrderSummary] *)

Definition promptOf (orderDesc : gostring) : gostring :=
  u "Create the order summary for the customer in one or two complete sentences. Include order number, preference, address, pickup time. Use the following order details: "
  ++ orderDesc.

Definition generateOrderSummary (w : World) (orderDesc : gostring)
    : M (gostring * gostring) :=
  let prompt := promptOf orderDesc in
  (* Try OpenAI first *)
  let key := Getenv w "OPENAI_API_KEY" in
  if negb (is_empty key) then
    logf (u "order summary: input prompt: " ++ prompt) ;;;
    res <- callOpenAI w prompt key ;;
    let '(s, err) := res in
    match err with
    | Some e =>
        logf (u "order summary: OpenAI call failed: " ++ e) ;;;
        ret (fallbackSummaryText, u "fallback")
    | None =>
        if is_empty s then
          logf (u "order summary: OpenAI returned empty content, using fallback") ;;;
          ret (fallbackSummaryText, u "fallback")
        else
          logf (u "order summary: output (" ++ Itoa (byte_len s) ++ u " chars): " ++ s) ;;;
          ret (s, u "ai")
    end
  else
  (* Then Gemini *)
  let key := Getenv w "GEMINI_API_KEY" in
  if negb (is_empty key) then
    logf (u "order summary: input prompt: " ++ prompt) ;;;
    res <- callGemini w prompt key ;;
    let '(s, err) := res in
    match err with
    | Some e =>
        logf (u "order summary: Gemini call failed: " ++ e) ;;;
        ret (fallbackSummaryText, u "fallback")
    | None =>
        if is_empty s then
          logf (u "order summary: Gemini returned empty content, using fallback") ;;;
          ret (fallbackSummaryText, u "fallback")
        else
          logf (u "order summary: output (" ++ Itoa (byte_len s) ++ u " chars): " ++ s) ;;;
          ret (s, u "ai")
    end
  else
  (* No AI key set *)
  ret (fallbackSummaryText, u "fallback").

(* ------------------------------------------------------------------ *)
(** ** The JSON reply of the [OrderSummary] handler *)

Record OrderSummaryResponse := mkOrderSummaryResponse {
  Summary : gostring; Source : gostring }.

(** The members [json.Encoder] writes for the struct: [summary] always,
    [source] under [omitempty], so only when non-empty. *)
Definition json_members (r : OrderSummaryResponse) : list (string * gostring) :=
  ("summary"%string, Summary r)
  :: (if is_empty (Source r) then [] else [("source"%string, Source r)]).

(** [OrderSummary] from the point where the order row was found. *)
Definition orderSummaryReply (w : World) (id : Z) (preference : gostring)
    (address : NullString) (pickupTime : NullTime) (createdAt : Time)
    : M (list (string * gostring)) :=
  let desc := orderDescription id preference address pickupTime createdAt in
  res <- generateOrderSummary w desc ;;
  let '(summary, source) := res in
  ret (json_members (mkOrderSummaryResponse summary source)).

(* ------------------------------------------------------------------ *)
(** ** The HTTP layer: handlers and the authentication middleware *)

(** A JSON error body [{"error":"msg"}], as the handlers' raw literals. *)
Definition dq : gostring := [34].
Definition json_error (msg : string) : gostring :=
  u "{" ++ dq ++ u "error" ++ dq ++ u ":" ++ dq ++ u msg ++ dq ++ u "}".

(** What a handler writes: [http.Error(w, body, status)] or a JSON-encoded
    value with status 200 (201 where noted). *)
Inductive Reply (A : Type) :=
| HttpError (status : Z) (body : gostring)
| HttpOk (status : Z) (v : A).
Arguments HttpError {A} status body.
Arguments HttpOk {A} status v.

(** [strconv.Atoi] on a 64-bit platform: an optional sign, then one or
    more ASCII digits, the value within [int64]. *)
Fixpoint digits_value (acc : Z) (s : gostring) : option Z :=
  match s with
  | [] => Some acc
  | r :: s' => if (48 <=? r) && (r <=? 57) then digits_value (acc * 10 + (r - 48)) s'
               else None
  end.

Definition Atoi (s : gostring) : option Z :=
  let '(neg, ds) :=
    match s with
    | r :: s' => if r =? 45 then (true, s') else if r =? 43 then (false, s') else (false, s)
    | [] => (false, s)
    end in
  match ds with
  | [] => None
  | _ =>
      match digits_value 0 ds with
      | None => None
      | Some n =>
          let v := if neg then - n else n in
          if (- 2 ^ 63 <=? v) && (v <? 2 ^ 63) then Some v else None
      end
  end.

(** The row of [SELECT preference, address, pickup_time, created_at FROM
    orders WHERE id = $1 AND user_id = $2], scanned. *)
Inductive OrderRow :=
| RowFound (preference : gostring) (address : NullString)
           (pickupTime : NullTime) (createdAt : Time)
| RowNone                          (** [sql.ErrNoRows] *)
| RowErr (e : gostring).

(** The order table, queried by [(id, user_id)]. *)
Definition OrderDB := Z -> Z -> OrderRow.

(** [OrderSummary]: [ctxUser] is [middleware.UserIDFrom(r.Context())],
    [idStr] is [r.PathValue("id")]. *)
Definition OrderSummary (w : World) (db : OrderDB) (ctxUser : option Z)
    (idStr : gostring) : M (Reply (list (string * gostring))) :=
  match ctxUser with
  | None => ret (HttpError 401 (json_error "unauthorized"))
  | Some userID =>
      match Atoi idStr with
      | None => ret (HttpError 400 (json_error "invalid id"))
      | Some id =>
          if id <? 1 then ret (HttpError 400 (json_error "invalid id")) else
          match db id userID with
          | RowNone => ret (HttpError 404 (json_error "not found"))
          | RowErr _ => ret (HttpError 500 (json_error "internal error"))
          | RowFound preference address pickupTime createdAt =>
              members <- orderSummaryReply w id preference address pickupTime createdAt ;;
              ret (HttpOk 200 members)
          end
      end
  end.

(** [OrderResponse]; the pointer fields as options. *)
Record OrderResponse := mkOrderResponse {
  or_ID : Z; or_UserID : Z; or_Preference : gostring;
  or_Address : option gostring; or_PickupTime : option gostring;
  or_CreatedAt : Time }.

Definition orderToResponse (id userID : Z) (pref : gostring)
    (addr pt : option gostring) (createdAt : Time) : OrderResponse :=
  mkOrderResponse id userID pref addr pt createdAt.

(** [GetOrder]. *)
Definition GetOrder (db : OrderDB) (ctxUser : option Z) (idStr : gostring)
    : Reply OrderResponse :=
  match ctxUser with
  | None => HttpError 401 (json_error "unauthorized")
  | Some userID =>
      match Atoi idStr with
      | None => HttpError 400 (json_error "invalid id")
      | Some id =>
          if id <? 1 then HttpError 400 (json_error "invalid id") else
          match db id userID with
          | RowNone => HttpError 404 (json_error "not found")
          | RowErr _ => HttpError 500 (json_error "internal error")
          | RowFound preference address pickupTime createdAt =>
              let addrPtr := if ns_Valid address then Some (ns_String address) else None in
              let timePtr := if nt_Valid pickupTime
                             then Some (FormatRFC3339 (nt_Time pickupTime)) else None in
              HttpOk 200 (orderToResponse id userID preference addrPtr timePtr createdAt)
          end
      end
  end.

(** [strings.TrimPrefix(s, prefix)]. *)
Definition TrimPrefix (s prefix : gostring) : gostring :=
  if prefixb prefix s then skipn (List.length prefix) s else s.

(** [middleware.RequireAuth(secret)(next)]: [authHeader] is
    [r.Header.Get("Authorization")]; [parseJWT] is [jwt.ParseWithClaims]
    with the secret as key, giving the claims' [UserID] when it returns no
    error and a valid token. [next] receives the context's user id. *)
Definition RequireAuth {A} (parseJWT : gostring -> option Z) (authHeader : gostring)
    (next : option Z -> M (Reply A)) : M (Reply A) :=
  if is_empty authHeader || negb (prefixb (u "Bearer ") authHeader)
  then ret (HttpError 401 (json_error "unauthorized"))
  else
    let tokenStr := TrimPrefix authHeader (u "Bearer ") in
    match parseJWT tokenStr with
    | None => ret (HttpError 401 (json_error "unauthorized"))
    | Some userID => next (Some userID)
    end.

(** The route [GET /orders/{id}/summary], [auth(h.OrderSummary)]. *)
Definition summaryRoute (w : World) (db : OrderDB) (parseJWT : gostring -> option Z)
    (authHeader idStr : gostring) : M (Reply (list (string * gostring))) :=
  RequireAuth parseJWT authHeader (fun ctxUser => OrderSummary w db ctxUser idStr).

(** [validateOrder]; [time.Parse(time.RFC3339, _)], [time.Now()] and
    [After] are the library's. *)
Record OrderRequest := mkOrderRequest {
  rq_Preference : gostring;
  rq_Address : option gostring;
  rq_PickupTime : option gostring }.

Record TimeLib := mkTimeLib {
  ParseRFC3339 : gostring -> option Time;
  Now : Time;
  After : Time -> Time -> bool }.

Definition PrefInStore : gostring := u "IN_STORE".
Definition PrefDelivery : gostring := u "DELIVERY".
Definition PrefCurbside : gostring := u "CURBSIDE".

(** [validPrefs[p]] *)
Definition validPrefs (p : gostring) : bool :=
  eqb p PrefInStore || eqb p PrefDelivery || eqb p PrefCurbside.

Definition validateOrder (tl : TimeLib) (req : OrderRequest) : option gostring :=
  if negb (validPrefs (rq_Preference req))
  then Some (u "preference must be IN_STORE, DELIVERY, or CURBSIDE") else
  if (eqb (rq_Preference req) PrefDelivery || eqb (rq_Preference req) PrefCurbside)
     && match rq_Address req with
        | None => true
        | Some a => is_empty (TrimSpace a)
        end
  then Some (u "address required for DELIVERY and CURBSIDE") else
  if negb (eqb (rq_Preference req) PrefInStore) then
    match rq_PickupTime req with
    | None => Some (u "pickup_time required when not IN_STORE")
    | Some p =>
        if is_empty p then Some (u "pickup_time required when not IN_STORE") else
        match ParseRFC3339 tl p with
        | None => Some (u "pickup_time must be RFC3339")
        | Some t =>
            if negb (After tl t (Now tl))
            then Some (u "pickup_time must be in the future")
            else None
        end
    end
  else None.

(** [escapeJSON]: [strings.ReplaceAll(s, `"`, `\"`)]. *)
Definition escapeJSON (s : gostring) : gostring := ReplaceAll s dq ([92] ++ dq).

(** [Login]: [method] is [r.Method], [body] the decoded [LoginRequest]. *)
Record LoginRequest := mkLoginRequest { Email : gostring; Password : gostring }.
Record LoginResponse := mkLoginResponse { Token : gostring }.

(** The row of [SELECT id, password_hash FROM users WHERE email = $1]. *)
Inductive UserRow :=
| UserFound (id : Z) (hash : gostring)
| UserNoRows
| UserErr (e : gostring).

(** The collaborators of [Login]: the user table, [bcrypt.CompareHashAndPassword]
    (true when it returns no error) and the signing of the HS256 token with
    [UserID] and a 24-hour expiry ([None] when [SignedString] fails). *)
Record AuthBackend := mkAuthBackend {
  UserByEmail : gostring -> UserRow;
  CompareHashAndPassword : gostring -> gostring -> bool;
  SignToken : Z -> option gostring }.

Definition Login (be : AuthBackend) (method : gostring) (body : Decoded LoginRequest)
    : Reply LoginResponse :=
  if negb (eqb method (u "POST")) then HttpError 405 (json_error "method not allowed") else
  match body with
  | DecodeErr _ => HttpError 400 (json_error "invalid json")
  | DecodeOk req =>
      if is_empty (Email req) || is_empty (Password req)
      then HttpError 400 (json_error "email and password required") else
      match UserByEmail be (Email req) with
      | UserNoRows => HttpError 401 (json_error "invalid credentials")
      | UserErr _ => HttpError 500 (json_error "internal error")
      | UserFound id hash =>
          if negb (CompareHashAndPassword be hash (Password req))
          then HttpError 401 (json_error "invalid credentials") else
          match SignToken be id with
          | None => HttpError 500 (json_error "internal error")
          | Some signed => HttpOk 200 (mkLoginResponse signed)
          end
      end
  end.

(* ------------------------------------------------------------------ *)
(** ** Reading the specification: auxiliary definitions *)

(** The network requests of a trace. *)
Fixpoint requests (tr : list Event) : list Request :=
  match tr with
  | [] => []
  | EvRequest r :: tr' => r :: requests tr'
  | EvLog _ :: tr' => requests tr'
  end.

Definition is_openai_request (r : Request) : bool :=
  match req_Body r with OpenAIBody _ => true | GeminiBody _ => false end.
Definition is_gemini_request (r : Request) : bool :=
  match req_Body r with GeminiBody _ => true | OpenAIBody _ => false end.

(** How the orchestrator turns an adapter's [(s, err)] into its reply. *)
Definition outcome (res : Result) : gostring * gostring :=
  match snd res with
  | Some _ => (fallbackSummaryText, u "fallback")
  | None => if is_empty (fst res) then (fallbackSummaryText, u "fallback")
            else (fst res, u "ai")
  end.

(** Whitespace-only (or empty). *)
Definition blank (s : gostring) : Prop := TrimSpace s = [].

(** The Gemini request [callGemini] sends for a trimmed credential. *)
Definition gemini_request_for (prompt key : gostring) : Request :=
  mkRequest (u "POST") (geminiGenerateContentURL ++ u "?key=" ++ key)
    [(u "Content-Type", u "application/json")]
    (GeminiBody (mkGeminiGenerateContentRequest
                   [mkGeminiContentItem [mkGeminiPart prompt]]
                   (Some (mkGeminiGenerationConfig aiMaxOutputTokens))))
    aiHTTPTimeout.

(** The first candidate's parts' texts, concatenated in order and trimmed. *)
Definition first_candidate_text (out : GeminiGenerateContentResponse) : gostring :=
  match Candidates out with
  | [] => []
  | c :: _ => TrimSpace (List.concat (map Text (Parts (cand_Content c))))
  end.

(** Segments joined by a separator. *)
Definition join (sep : gostring) (xs : list gostring) : gostring :=
  match xs with
  | [] => []
  | x :: xs' => x ++ flat_map (fun y => sep ++ y) xs'
  end.

Definition underscore_to_space (r : rune) : rune := if r =? 95 then 32 else r.

(** The OpenAI request [callOpenAI] sends for a trimmed credential. *)
Definition openai_request_for (prompt key : gostring) : Request :=
  mkRequest (u "POST") openaiChatCompletionsURL
    [(u "Authorization", u "Bearer " ++ key);
     (u "Content-Type", u "application/json")]
    (OpenAIBody (mkOpenAIChatRequest (u "gpt-4o-mini")
                   [mkOpenAIMessage (u "user") prompt] aiMaxOutputTokens))
    aiHTTPTimeout.

(** An order description rendered from what [GET /orders/{id}] returns: a
    present but empty address, and an absent one, read as ["(none)"]. *)
Definition description_of_response (resp : OrderResponse) : gostring :=
  u "Order number: " ++ Itoa (or_ID resp)
  ++ u ". Preference: " ++ map underscore_to_space (or_Preference resp)
  ++ u ". Address: " ++ (match or_Address resp with
                         | Some s => if is_empty s then u "(none)" else s
                         | None => u "(none)"
                         end)
  ++ u ". Pickup time: " ++ (match or_PickupTime resp with
                             | Some s => s
                             | None => u "(none)"
                             end)
  ++ u ". Creation date: " ++ FormatRFC3339 (or_CreatedAt resp).

(** A backslash written before every double quote. *)
Definition escape_quotes (s : gostring) : gostring :=
  flat_map (fun r => if r =? 34 then [92; 34] else [r]) s.

(** The description as the specification lays it out, with the text put in
    the address segment left as a parameter. *)
Definition description_layout (id : Z) (preference : gostring)
    (address_text : gostring) (pickupTime : NullTime) (createdAt : Time)
    : gostring :=
  join (u ". ")
    [u "Order number: " ++ Itoa id;
     u "Preference: " ++ map underscore_to_space preference;
     u "Address: " ++ address_text;
     u "Pickup time: " ++ (if nt_Valid pickupTime
                           then FormatRFC3339 (nt_Time pickupTime)
                           else u "(none)");
     u "Creation date: " ++ FormatRFC3339 createdAt].

(** Concrete configurations and peers, for the witnesses. *)
Definition env_of (openai gemini : gostring) (name : string) : gostring :=
  if String.eqb name "OPENAI_API_KEY" then openai
  else if String.eqb name "GEMINI_API_KEY" then gemini
  else [].

(** A body every provider decodes as a reply whose first choice, resp.
    first candidate, carries the given texts. *)
Definition reply_body (texts : list gostring) : ResponseBody :=
  mkResponseBody (mkOpenAIErrorBody [] [])
    (DecodeOk (mkOpenAIChatResponse [mkOpenAIChoice (List.concat texts)]))
    (DecodeOk (mkGeminiGenerateContentResponse
                 [mkGeminiCandidate (mkGeminiContent (map mkGeminiPart texts))]
                 None)).

Definition world_ok (openai gemini : gostring) (texts : list gostring) : World :=
  mkWorld (env_of openai gemini)
    (fun _ => DoOk (mkResponse 200 (u "200 OK") (reply_body texts))).

Definition world_down (openai gemini : gostring) : World :=
  mkWorld (env_of openai gemini)
    (fun _ => DoError (u "dial tcp: connect: connection refused")).

Definition world_unauthorized (openai gemini : gostring) : World :=
  mkWorld (env_of openai gemini)
    (fun _ => DoOk (mkResponse 401 (u "401 Unauthorized")
                     (mkResponseBody (mkOpenAIErrorBody (u "Incorrect API key provided") [])
                        (DecodeErr (u "unexpected EOF"))
                        (DecodeErr (u "unexpected EOF"))))).

Definition scenario_created : Time := mkTime 2025 1 1 0 0 0 0.
Definition no_time : NullTime := mkNullTime (mkTime 1 1 1 0 0 0 0) false.

(** Order 7, [IN_STORE], no address, no pickup time. *)
Definition scenario7_desc : gostring :=
  orderDescription 7 (u "IN_STORE") (mkNullString [] false) no_time scenario_created.

(** An order table holding one row, for the given order and owner. *)
Definition db_one (id userID : Z) (row : OrderRow) : OrderDB :=
  fun i uid => if (i =? id) && (uid =? userID) then row else RowNone.

Definition row_delivery : OrderRow :=
  RowFound (u "DELIVERY") (mkNullString (u "1 Main St") true)
    (mkNullTime (mkTime 2025 1 2 10 30 0 0) true) scenario_created.

(** A token parser accepting the single token ["tok"] for user 1. *)
Definition jwt_tok (s : gostring) : option Z := if eqb s (u "tok") then Some 1 else None.

(** A user table with one account (id 1) whose password is ["pw"]. *)
Definition backend_one : AuthBackend :=
  mkAuthBackend
    (fun e => if eqb e (u "a@b.c") then UserFound 1 (u "$2a$hash") else UserNoRows)
    (fun h p => eqb h (u "$2a$hash") && eqb p (u "pw"))
    (fun id => Some (u "signed." ++ Itoa id)).

Definition backend_none : AuthBackend :=
  mkAuthBackend (fun _ => UserNoRows) (fun _ _ => false) (fun _ => None).

(** A clock at 2026 that parses one RFC 3339 text and compares by year. *)
Definition clock_2026 : TimeLib :=
  mkTimeLib
    (fun s => if eqb s (u "2030-01-01T10:00:00Z") then Some (mkTime 2030 1 1 10 0 0 0)
              else None)
    (mkTime 2026 10 14 12 0 0 0)
    (fun a b => year b <? year a).

(** A Gemini peer behind a proxy answering 503 with an HTML page. *)
Definition html_body : ResponseBody :=
  mkResponseBody (mkOpenAIErrorBody [] [])
    (DecodeErr (u "invalid character '<' looking for beginning of value"))
    (DecodeErr (u "invalid character '<' looking for beginning of value")).

Definition world_gemini_html : World :=
  mkWorld (env_of [] (u "g-key"))
    (fun _ => DoOk (mkResponse 503 (u "503 Service Unavailable") html_body)).

(* ------------------------------------------------------------------ *)
(** ** Lemmas on strings *)

Lemma trim_right_idem : forall s, trim_right (trim_right s) = trim_right s.
Proof.
  induction s as [|r s IH]; [reflexivity|].
  cbn [trim_right]. destruct (trim_right s) as [|r' s''] eqn:E.
  - destruct (is_space r) eqn:Hr; cbn; [reflexivity|rewrite Hr; reflexivity].
  - change (trim_right (r :: r' :: s'')) with
      (match trim_right (r' :: s'') with
       | [] => if is_space r then [] else [r]
       | s0 => r :: s0 end).
    rewrite IH. reflexivity.
Qed.

Lemma trim_right_head : forall s r t, trim_right s = r :: t -> exists s', s = r :: s'.
Proof.
  destruct s as [|r0 s]; cbn; [discriminate|].
  intros r t. destruct (trim_right s); [destruct (is_space r0)|];
    intros H; inversion H; eauto.
Qed.

Lemma trim_left_head : forall s r t, trim_left s = r :: t -> is_space r = false.
Proof.
  induction s as [|r0 s IH]; cbn; [discriminate|].
  intros r t. destruct (is_space r0) eqn:E; [apply IH|].
  intros H; inversion H; subst; assumption.
Qed.

Lemma trim_right_last : forall s, trim_right s <> [] -> is_space (last (trim_right s) 0) = false.
Proof.
  induction s as [|r s IH]; cbn; [congruence|].
  destruct (trim_right s) as [|r' s''] eqn:E.
  - destruct (is_space r) eqn:Hr; cbn; congruence.
  - intros _. specialize (IH ltac:(discriminate)).
    change (last (r :: r' :: s'') 0) with (last (r' :: s'') 0). exact IH.
Qed.

Lemma TrimSpace_idem : forall s, TrimSpace (TrimSpace s) = TrimSpace s.
Proof.
  intros s. unfold TrimSpace.
  destruct (trim_right (trim_left s)) as [|r t] eqn:E; [reflexivity|].
  destruct (trim_right_head _ _ _ E) as [s' Hs'].
  pose proof (trim_left_head s r s' Hs') as Hr.
  rewrite <- E at 1. cbn [trim_left]. rewrite E. cbn [trim_left]. rewrite Hr.
  rewrite <- E. apply trim_right_idem.
Qed.

(** Trimmed text has no whitespace at either end. *)
Lemma TrimSpace_edges : forall s, TrimSpace s <> [] ->
  is_space (hd 0 (TrimSpace s)) = false /\ is_space (last (TrimSpace s) 0) = false.
Proof.
  intros s H. split.
  - unfold TrimSpace in *. destruct (trim_right (trim_left s)) as [|r t] eqn:E; [congruence|].
    destruct (trim_right_head _ _ _ E) as [s' Hs'].
    exact (trim_left_head s r s' Hs').
  - apply trim_right_last. exact H.
Qed.

Lemma replace_all_fuel_rune : forall a b s f, (List.length s <= f)%nat ->
  replace_all_fuel f [a] [b] s = map (fun r => if r =? a then b else r) s.
Proof.
  intros a b s. induction s as [|r s IH]; intros f Hf; destruct f; cbn in *; try lia; auto.
  rewrite Z.eqb_sym. destruct (r =? a); cbn; rewrite IH by lia; reflexivity.
Qed.

Lemma ReplaceAll_underscore : forall s,
  ReplaceAll s (u "_") (u " ") = map underscore_to_space s.
Proof.
  intros s. apply replace_all_fuel_rune. lia.
Qed.

Lemma join_parts_concat : forall ps acc,
  fold_left (fun full p => if is_empty (Text p) then full else full ++ Text p) ps acc
  = acc ++ List.concat (map Text ps).
Proof.
  induction ps as [|p ps IH]; intros acc; cbn; [rewrite app_nil_r; reflexivity|].
  rewrite IH. destruct (Text p) eqn:E; cbn; [reflexivity|].
  rewrite <- app_assoc. reflexivity.
Qed.

Lemma requests_app : forall t1 t2, requests (t1 ++ t2) = requests t1 ++ requests t2.
Proof.
  induction t1 as [|[m|r] t1 IH]; intros t2; cbn; rewrite ?IH; reflexivity.
Qed.

(* ------------------------------------------------------------------ *)
(** ** Lemmas on the adapters *)

Ltac case_code :=
  repeat match goal with
  | |- context [match ?x with _ => _ end] =>
      lazymatch x with
      | u _ => fail
      | context [match _ with _ => _ end] => fail
      | _ => destruct x eqn:?
      end
  end.

Ltac adapter_close :=
  repeat split; intros;
  first [ reflexivity | discriminate | congruence | lia
        | apply TrimSpace_idem | idtac ].

(** What [callOpenAI] can return and send, for every world. *)
Lemma callOpenAI_shape : forall w p k,
  let r := callOpenAI w p k in
  (snd (snd r) <> None -> fst (snd r) = []) /\
  (snd (snd r) = None -> TrimSpace (fst (snd r)) = fst (snd r)) /\
  (List.length (requests (fst r)) <= 1)%nat /\
  forallb is_openai_request (requests (fst r)) = true /\
  (TrimSpace k = [] -> fst r = []).
Proof.
  intros w p k. unfold callOpenAI, bind, client_Do, ret.
  destruct (TrimSpace k) as [|r0 k'] eqn:Ek; cbn -[TrimSpace Itoa u].
  - adapter_close.
  - case_code; cbn -[TrimSpace Itoa u]; adapter_close.
Qed.

Lemma callGemini_shape : forall w p k,
  let r := callGemini w p k in
  (snd (snd r) <> None -> fst (snd r) = []) /\
  (snd (snd r) = None -> TrimSpace (fst (snd r)) = fst (snd r)) /\
  (List.length (requests (fst r)) <= 1)%nat /\
  forallb is_gemini_request (requests (fst r)) = true /\
  (TrimSpace k = [] -> fst r = []).
Proof.
  intros w p k. unfold callGemini, bind, client_Do, ret.
  destruct (TrimSpace k) as [|r0 k'] eqn:Ek; cbn -[TrimSpace Itoa u].
  - adapter_close.
  - case_code; cbn -[TrimSpace Itoa u]; adapter_close.
Qed.

(* ------------------------------------------------------------------ *)
(** ** Lemmas on the orchestrator *)

Lemma bind_log : forall {A} (m : gostring) (k : unit -> M A),
  bind (logf m) k = (EvLog m :: fst (k tt), snd (k tt)).
Proof. intros A m k. unfold bind, logf. destruct (k tt). reflexivity. Qed.

Lemma bind_pair : forall {A B} (m : M A) (k : A -> M B),
  bind m k = (fst m ++ fst (k (snd m)), snd (k (snd m))).
Proof. intros A B [t a] k. unfold bind. cbn. destruct (k a). reflexivity. Qed.

Lemma generateOrderSummary_cases : forall w d,
  let kA := Getenv w "OPENAI_API_KEY" in
  let kB := Getenv w "GEMINI_API_KEY" in
  let run := generateOrderSummary w d in
  (is_empty kA = false ->
     snd run = outcome (snd (callOpenAI w (promptOf d) kA)) /\
     requests (fst run) = requests (fst (callOpenAI w (promptOf d) kA))) /\
  (is_empty kA = true -> is_empty kB = false ->
     snd run = outcome (snd (callGemini w (promptOf d) kB)) /\
     requests (fst run) = requests (fst (callGemini w (promptOf d) kB))) /\
  (is_empty kA = true -> is_empty kB = true ->
     run = ([], (fallbackSummaryText, u "fallback"))).
Proof.
  intros w d. cbv zeta. unfold generateOrderSummary. cbv zeta.
  remember (Getenv w "OPENAI_API_KEY") as kA.
  remember (Getenv w "GEMINI_API_KEY") as kB.
  destruct (is_empty kA) eqn:HA; [destruct (is_empty kB) eqn:HB|]; cbn [negb];
    repeat split; intros; try discriminate; try reflexivity;
    rewrite bind_log; cbn [fst snd requests];
    lazymatch goal with
    | |- context [callOpenAI ?w ?p ?k] => destruct (callOpenAI w p k) as [tr [s [e|]]]
    | |- context [callGemini ?w ?p ?k] => destruct (callGemini w p k) as [tr [s [e|]]]
    end;
    rewrite bind_pair; cbn [fst snd]; unfold outcome; cbn [fst snd];
    try (destruct (is_empty s));
    rewrite ?bind_log; cbn [fst snd requests]; rewrite ?requests_app;
    cbn [requests]; rewrite ?app_nil_r; reflexivity.
Qed.

Lemma callOpenAI_blank_key : forall w p k, TrimSpace k = [] ->
  callOpenAI w p k = ([], ([], Some (u "openai: empty API key"))).
Proof. intros w p k H. unfold callOpenAI. rewrite H. reflexivity. Qed.

Lemma callGemini_blank_key : forall w p k, TrimSpace k = [] ->
  callGemini w p k = ([], ([], Some (u "gemini: missing GEMINI_API_KEY"))).
Proof. intros w p k H. unfold callGemini. rewrite H. reflexivity. Qed.

Lemma is_empty_false : forall s : gostring, is_empty s = false <-> s <> [].
Proof. intros [|r s]; cbn; split; congruence. Qed.

Lemma is_empty_true : forall s : gostring, is_empty s = true <-> s = [].
Proof. intros [|r s]; cbn; split; congruence. Qed.

(** The outcome of a trimmed-or-failed adapter result. *)
Lemma outcome_cases : forall res : Result,
  (snd res <> None -> fst res = []) ->
  (snd res = None -> TrimSpace (fst res) = fst res) ->
  outcome res = (fallbackSummaryText, u "fallback") \/
  (fst (outcome res) <> [] /\ TrimSpace (fst (outcome res)) = fst (outcome res)
   /\ snd (outcome res) = u "ai").
Proof.
  intros [s [e|]] H1 H2; unfold outcome; cbn in *; [left; reflexivity|].
  destruct (is_empty s) eqn:E; [left; reflexivity|right].
  apply is_empty_false in E. cbn. auto.
Qed.

(** Every reply of [generateOrderSummary]: the fallback pair, or a
    non-empty trimmed text tagged ["ai"]. *)
Lemma generateOrderSummary_reply : forall w d,
  let r := snd (generateOrderSummary w d) in
  r = (fallbackSummaryText, u "fallback") \/
  (fst r <> [] /\ TrimSpace (fst r) = fst r /\ snd r = u "ai").
Proof.
  intros w d r. unfold r. clear r.
  destruct (generateOrderSummary_cases w d) as [HA [HB HN]]. cbv zeta in HA, HB, HN.
  destruct (is_empty (Getenv w "OPENAI_API_KEY")) eqn:EA;
    [destruct (is_empty (Getenv w "GEMINI_API_KEY")) eqn:EB|].
  - rewrite (HN eq_refl eq_refl). left. reflexivity.
  - destruct (HB eq_refl eq_refl) as [-> _].
    destruct (callGemini_shape w (promptOf d) (Getenv w "GEMINI_API_KEY")) as [S1 [S2 _]].
    apply outcome_cases; assumption.
  - destruct (HA eq_refl) as [-> _].
    destruct (callOpenAI_shape w (promptOf d) (Getenv w "OPENAI_API_KEY")) as [S1 [S2 _]].
    apply outcome_cases; assumption.
Qed.

Lemma fallback_ne_ai : u "fallback" <> u "ai".
Proof. discriminate. Qed.

Lemma fallbackSummaryText_nonempty : fallbackSummaryText <> [].
Proof. discriminate. Qed.

(* ------------------------------------------------------------------ *)
(** ** Claims on [generateOrderSummary] *)

(** C1: for every configuration and every adapter outcome (no key,
    transport or HTTP error, malformed body, empty or non-blank text),
    [generateOrderSummary] returns a non-empty summary whose source is
    ["ai"] or ["fallback"]; its type has no error channel, so nothing
    related to generation reaches the caller as an error. *)
Theorem generateOrderSummary_total : forall w d,
  let r := snd (generateOrderSummary w d) in
  fst r <> [] /\ (snd r = u "ai" \/ snd r = u "fallback").
Proof.
  intros w d r. unfold r.
  destruct (generateOrderSummary_reply w d) as [H | [H1 [_ H3]]].
  - rewrite H. cbn. split; [exact fallbackSummaryText_nonempty | right; reflexivity].
  - auto.
Qed.

(** C2 (as stated, refuted): with a whitespace-only OpenAI key (blank) and a
    usable Gemini key, the claim has Variant B attempted; the code tests the
    raw value for emptiness, attempts Variant A, whose adapter rejects the
    blank key, and sends no Gemini request. *)
Lemma precedence_blank_openai_key_cex :
  ~ (forall w d,
       blank (Getenv w "OPENAI_API_KEY") ->
       ~ blank (Getenv w "GEMINI_API_KEY") ->
       existsb is_gemini_request (requests (fst (generateOrderSummary w d))) = true).
Proof.
  intros H.
  specialize (H (world_ok (u " ") (u "gemini-key") [u "Hi"]) scenario7_desc).
  assert (Hb : blank (Getenv (world_ok (u " ") (u "gemini-key") [u "Hi"]) "OPENAI_API_KEY"))
    by (vm_compute; reflexivity).
  assert (Hnb : ~ blank (Getenv (world_ok (u " ") (u "gemini-key") [u "Hi"]) "GEMINI_API_KEY"))
    by (vm_compute; discriminate).
  specialize (H Hb Hnb). vm_compute in H. discriminate.
Qed.

(** C2 (amended): selection tests each configuration value for being
    non-empty, in fixed order. A non-empty OpenAI value: the reply is what
    Variant A's attempt gives and every request sent is an OpenAI request
    (Gemini is never called, even when A fails). Else a non-empty Gemini
    value: the reply is Variant B's and only Gemini requests are sent. Else
    nothing is sent and the reply is the fallback. At most one request is
    ever sent. *)
Theorem generateOrderSummary_precedence : forall w d,
  let kA := Getenv w "OPENAI_API_KEY" in
  let kB := Getenv w "GEMINI_API_KEY" in
  let run := generateOrderSummary w d in
  (kA <> [] ->
     snd run = outcome (snd (callOpenAI w (promptOf d) kA)) /\
     forallb is_openai_request (requests (fst run)) = true) /\
  (kA = [] -> kB <> [] ->
     snd run = outcome (snd (callGemini w (promptOf d) kB)) /\
     forallb is_gemini_request (requests (fst run)) = true) /\
  (kA = [] -> kB = [] ->
     requests (fst run) = [] /\ snd run = (fallbackSummaryText, u "fallback")) /\
  (List.length (requests (fst run)) <= 1)%nat.
Proof.
  intros w d kA kB run.
  destruct (generateOrderSummary_cases w d) as [HA [HB HN]]. cbv zeta in HA, HB, HN.
  fold kA kB run in HA, HB, HN.
  destruct (callOpenAI_shape w (promptOf d) kA) as [_ [_ [LA [FA _]]]].
  destruct (callGemini_shape w (promptOf d) kB) as [_ [_ [LB [FB _]]]].
  destruct (is_empty kA) eqn:EA; [destruct (is_empty kB) eqn:EB|].
  - apply is_empty_true in EA, EB.
    rewrite (HN eq_refl eq_refl). repeat split; intros; cbn; try congruence; lia.
  - pose proof EB as EB'. apply is_empty_false in EB'. apply is_empty_true in EA.
    destruct (HB eq_refl eq_refl) as [H1 H2]. rewrite H2.
    repeat split; intros; try congruence; assumption.
  - pose proof EA as EA'. apply is_empty_false in EA'.
    destruct (HA eq_refl) as [H1 H2]. rewrite H2.
    repeat split; intros; try congruence; assumption.
Qed.

(** C3: on an attempted call, an error or a blank result gives the fixed
    fallback text with source ["fallback"], a non-blank result is returned
    verbatim with source ["ai"]; with no usable credential at all the
    reply is the fallback and no request is sent. *)
Theorem generateOrderSummary_outcome : forall w d,
  let kA := Getenv w "OPENAI_API_KEY" in
  let kB := Getenv w "GEMINI_API_KEY" in
  let run := generateOrderSummary w d in
  (kA <> [] ->
     let res := snd (callOpenAI w (promptOf d) kA) in
     ((snd res <> None \/ blank (fst res)) ->
        snd run = (fallbackSummaryText, u "fallback")) /\
     (snd res = None -> ~ blank (fst res) -> snd run = (fst res, u "ai"))) /\
  (kA = [] -> kB <> [] ->
     let res := snd (callGemini w (promptOf d) kB) in
     ((snd res <> None \/ blank (fst res)) ->
        snd run = (fallbackSummaryText, u "fallback")) /\
     (snd res = None -> ~ blank (fst res) -> snd run = (fst res, u "ai"))) /\
  (blank kA -> blank kB ->
     snd run = (fallbackSummaryText, u "fallback") /\ requests (fst run) = []).
Proof.
  intros w d kA kB run.
  destruct (generateOrderSummary_cases w d) as [HA [HB HN]]. cbv zeta in HA, HB, HN.
  fold kA kB run in HA, HB, HN.
  destruct (callOpenAI_shape w (promptOf d) kA) as [SA1 [SA2 _]].
  destruct (callGemini_shape w (promptOf d) kB) as [SB1 [SB2 _]].
  assert (Hout : forall res : Result,
            (snd res <> None -> fst res = []) ->
            (snd res = None -> TrimSpace (fst res) = fst res) ->
            ((snd res <> None \/ blank (fst res)) ->
               outcome res = (fallbackSummaryText, u "fallback")) /\
            (snd res = None -> ~ blank (fst res) -> outcome res = (fst res, u "ai"))).
  { intros [s [e|]] H1 H2; unfold outcome, blank in *; cbn in *; split; intros H.
    - reflexivity.
    - congruence.
    - destruct H as [H | H]; [congruence|]. rewrite H2 in H by reflexivity.
      subst s. reflexivity.
    - intros H'. destruct s; cbn in *; [contradiction|reflexivity]. }
  split; [|split].
  - intros HkA. apply is_empty_false in HkA. destruct (HA HkA) as [-> _].
    apply Hout; assumption.
  - intros HkA HkB. apply is_empty_true in HkA. apply is_empty_false in HkB.
    destruct (HB HkA HkB) as [-> _]. apply Hout; assumption.
  - intros BA BB. destruct (is_empty kA) eqn:EA; [destruct (is_empty kB) eqn:EB|].
    + rewrite (HN eq_refl eq_refl). split; reflexivity.
    + destruct (HB eq_refl eq_refl) as [-> ->].
      rewrite (callGemini_blank_key w (promptOf d) kB BB). split; reflexivity.
    + destruct (HA eq_refl) as [-> ->].
      rewrite (callOpenAI_blank_key w (promptOf d) kA BA). split; reflexivity.
Qed.

(** C9: the fallback text is one constant: two runs on the same
    description that both fail to produce an ["ai"] reply, whatever the
    reason, return the identical pair. *)
Theorem fallback_indistinguishable : forall w1 w2 d,
  snd (snd (generateOrderSummary w1 d)) <> u "ai" ->
  snd (snd (generateOrderSummary w2 d)) <> u "ai" ->
  snd (generateOrderSummary w1 d) = snd (generateOrderSummary w2 d).
Proof.
  intros w1 w2 d H1 H2.
  destruct (generateOrderSummary_reply w1 d) as [E1 | [_ [_ E1]]]; [|contradiction].
  destruct (generateOrderSummary_reply w2 d) as [E2 | [_ [_ E2]]]; [|contradiction].
  congruence.
Qed.

(** C10: a reply with source ["ai"] is non-empty and has no whitespace at
    either end. *)
Theorem ai_summary_trimmed : forall w d,
  snd (snd (generateOrderSummary w d)) = u "ai" ->
  let s := fst (snd (generateOrderSummary w d)) in
  s <> [] /\ TrimSpace s = s /\
  is_space (hd 0 s) = false /\ is_space (last s 0) = false.
Proof.
  intros w d Hai s.
  destruct (generateOrderSummary_reply w d) as [E | [N [T _]]].
  - rewrite E in Hai. cbn in Hai. discriminate.
  - fold s in N, T. split; [exact N|]. split; [exact T|].
    rewrite <- T. apply TrimSpace_edges. rewrite T. exact N.
Qed.

(** C8: the encoded reply always carries the [source] member, set to
    ["ai"] or ["fallback"]: [omitempty] never drops it. *)
Theorem orderSummaryReply_emits_source : forall w id preference address pickupTime createdAt,
  exists summary source,
    snd (orderSummaryReply w id preference address pickupTime createdAt)
      = [("summary"%string, summary); ("source"%string, source)] /\
    (source = u "ai" \/ source = u "fallback").
Proof.
  intros. unfold orderSummaryReply. rewrite bind_pair. cbn [snd].
  set (d := orderDescription id preference address pickupTime createdAt).
  destruct (generateOrderSummary_reply w d) as [E | [_ [_ E]]];
    destruct (snd (generateOrderSummary w d)) as [s src]; cbn in E.
  - inversion E; subst. cbn. eexists _, _. split; [reflexivity|right; reflexivity].
  - subst src. cbn. eexists _, _. split; [reflexivity|left; reflexivity].
Qed.

(* ------------------------------------------------------------------ *)
(** ** Claims on [orderDescription] *)

Lemma orderDescription_layout : forall id preference address pickupTime createdAt,
  orderDescription id preference address pickupTime createdAt
  = description_layout id preference
      (if ns_Valid address && negb (is_empty (ns_String address))
       then ns_String address else u "(none)")
      pickupTime createdAt.
Proof.
  intros. unfold orderDescription, description_layout, join.
  rewrite ReplaceAll_underscore. cbn [flat_map]. rewrite app_nil_r.
  destruct (ns_Valid address && negb (is_empty (ns_String address)));
    destruct (nt_Valid pickupTime);
    repeat rewrite <- app_assoc; reflexivity.
Qed.

(** C4: the description is a function of the order's fields (so repeated
    calls agree) and is the segments ["Order number: {id}"],
    ["Preference: {preference, '_' replaced by ' '}"], the address, the
    pickup time and ["Creation date: {RFC 3339}"], in this order, joined by
    [". "]; an absent (null or empty) address and a null pickup time render
    as ["(none)"]. *)
Theorem orderDescription_segments : forall id preference address pickupTime createdAt,
  orderDescription id preference address pickupTime createdAt
  = join (u ". ")
      [u "Order number: " ++ Itoa id;
       u "Preference: " ++ map underscore_to_space preference;
       u "Address: " ++ (if ns_Valid address && negb (is_empty (ns_String address))
                         then ns_String address else u "(none)");
       u "Pickup time: " ++ (if nt_Valid pickupTime
                             then FormatRFC3339 (nt_Time pickupTime)
                             else u "(none)");
       u "Creation date: " ++ FormatRFC3339 createdAt].
Proof. intros. apply orderDescription_layout. Qed.

(** C5 (as stated, refuted): a present but whitespace-only address is not
    replaced by ["(none)"]; the code renders it literally. *)
Lemma orderDescription_blank_address_cex :
  ~ (forall id preference address pickupTime createdAt,
       orderDescription id preference address pickupTime createdAt
       = description_layout id preference
           (if ns_Valid address && negb (is_empty (TrimSpace (ns_String address)))
            then ns_String address else u "(none)")
           pickupTime createdAt).
Proof.
  intros H.
  specialize (H 7 (u "IN_STORE") (mkNullString (u "   ") true) no_time scenario_created).
  vm_compute in H. discriminate.
Qed.

(** C5 (amended): a present address with a non-empty string is written
    literally (a whitespace-only one included); a null or empty one renders
    ["(none)"]; the ["Address: "] segment is always there. *)
Theorem orderDescription_address_segment : forall id preference address pickupTime createdAt,
  (ns_Valid address = true -> ns_String address <> [] ->
     orderDescription id preference address pickupTime createdAt
     = description_layout id preference (ns_String address) pickupTime createdAt) /\
  ((ns_Valid address = false \/ ns_String address = []) ->
     orderDescription id preference address pickupTime createdAt
     = description_layout id preference (u "(none)") pickupTime createdAt).
Proof.
  intros. rewrite orderDescription_layout. split.
  - intros Hv Hs. rewrite Hv. apply is_empty_false in Hs. rewrite Hs. reflexivity.
  - intros [Hv | Hs]; [rewrite Hv | rewrite Hs, andb_false_r]; reflexivity.
Qed.

(* ------------------------------------------------------------------ *)
(** ** Claims on the adapters *)

(** C6: on a 200 response whose body decodes, [callGemini] returns, with
    no error, the trimmed concatenation in order of the first candidate's
    parts' texts; no candidate, or a first candidate without parts, gives
    the empty string and no error. *)
Theorem callGemini_joins_parts : forall w prompt key resp out,
  TrimSpace key <> [] ->
  NewRequest_error (geminiGenerateContentURL ++ u "?key=" ++ TrimSpace key) = None ->
  RoundTrip w (gemini_request_for prompt (TrimSpace key)) = DoOk resp ->
  StatusCode resp = 200 ->
  as_gemini (Body resp) = DecodeOk out ->
  snd (callGemini w prompt key) = (first_candidate_text out, None) /\
  ((Candidates out = [] \/
    exists c cs, Candidates out = c :: cs /\ Parts (cand_Content c) = []) ->
   snd (callGemini w prompt key) = ([], None)).
Proof.
  intros w prompt key resp out Hk Hu Hrt Hst Hdec.
  assert (E : snd (callGemini w prompt key) = (first_candidate_text out, None)).
  { unfold callGemini. cbv zeta.
    destruct (is_empty (TrimSpace key)) eqn:Ek;
      [apply is_empty_true in Ek; contradiction|].
    rewrite Hu. unfold bind, client_Do. unfold gemini_request_for in Hrt.
    rewrite Hrt, Hdec, Hst. cbn -[TrimSpace join_parts].
    unfold first_candidate_text. destruct (Candidates out) as [|c cs]; [reflexivity|].
    destruct (Parts (cand_Content c)) as [|p ps]; [reflexivity|].
    unfold join_parts. rewrite join_parts_concat. reflexivity. }
  split; [exact E|]. rewrite E. unfold first_candidate_text.
  intros [H | [c [cs [H1 H2]]]]; [rewrite H | rewrite H1, H2]; reflexivity.
Qed.

(** C7: both adapters use the credential only trimmed (their behaviour on
    [key] and on [TrimSpace key] is the same), and a blank credential gives
    an error at once, with an empty trace: no request is sent. *)
Theorem adapters_credential_trimmed : forall w prompt key,
  callOpenAI w prompt key = callOpenAI w prompt (TrimSpace key) /\
  callGemini w prompt key = callGemini w prompt (TrimSpace key) /\
  (blank key ->
     callOpenAI w prompt key = ([], ([], Some (u "openai: empty API key"))) /\
     callGemini w prompt key = ([], ([], Some (u "gemini: missing GEMINI_API_KEY")))).
Proof.
  intros w prompt key. split; [|split].
  - unfold callOpenAI. rewrite TrimSpace_idem. reflexivity.
  - unfold callGemini. rewrite TrimSpace_idem. reflexivity.
  - intros Hb. split; [apply callOpenAI_blank_key | apply callGemini_blank_key]; exact Hb.
Qed.

(* ------------------------------------------------------------------ *)
(** ** Witnesses at concrete inputs *)

(** Both keys set, OpenAI unreachable: the fallback, and no Gemini request. *)
Lemma generateOrderSummary_precedence_witness :
  snd (generateOrderSummary (world_down (u "sk-test") (u "gemini-key")) scenario7_desc)
    = (fallbackSummaryText, u "fallback") /\
  forallb is_openai_request
    (requests (fst (generateOrderSummary (world_down (u "sk-test") (u "gemini-key"))
                      scenario7_desc))) = true.
Proof.
  destruct (generateOrderSummary_precedence
              (world_down (u "sk-test") (u "gemini-key")) scenario7_desc) as [HA _].
  cbv zeta in HA. destruct HA as [H1 H2]; [vm_compute; discriminate|].
  split; [rewrite H1; vm_compute; reflexivity | exact H2].
Defined.

(** Variant A answers a sentence: returned verbatim as ["ai"]; no keys at
    all: the fallback with no request. *)
Lemma generateOrderSummary_outcome_witness :
  snd (generateOrderSummary
         (world_ok (u "sk-test") [] [u "Order #7 is being prepared for in-store pickup."])
         scenario7_desc)
    = (u "Order #7 is being prepared for in-store pickup.", u "ai") /\
  snd (generateOrderSummary (world_ok [] [] [u "unused"]) scenario7_desc)
    = (fallbackSummaryText, u "fallback") /\
  requests (fst (generateOrderSummary (world_ok [] [] [u "unused"]) scenario7_desc)) = [].
Proof.
  destruct (generateOrderSummary_outcome
              (world_ok (u "sk-test") [] [u "Order #7 is being prepared for in-store pickup."])
              scenario7_desc) as [HA _].
  destruct (generateOrderSummary_outcome (world_ok [] [] [u "unused"]) scenario7_desc)
    as [_ [_ HN]].
  cbv zeta in HA, HN.
  destruct HA as [_ HA]; [vm_compute; discriminate|].
  destruct HN as [HN1 HN2]; [vm_compute; reflexivity | vm_compute; reflexivity|].
  split; [|split; assumption].
  rewrite HA; [vm_compute; reflexivity | vm_compute; reflexivity | vm_compute; discriminate].
Defined.

Lemma fallback_indistinguishable_witness :
  snd (snd (generateOrderSummary (world_ok [] [] [u "unused"]) scenario7_desc)) <> u "ai" /\
  snd (snd (generateOrderSummary (world_unauthorized (u "sk-bad") []) scenario7_desc)) <> u "ai" /\
  snd (generateOrderSummary (world_ok [] [] [u "unused"]) scenario7_desc)
    = snd (generateOrderSummary (world_unauthorized (u "sk-bad") []) scenario7_desc).
Proof.
  assert (H1 : snd (snd (generateOrderSummary (world_ok [] [] [u "unused"]) scenario7_desc))
               <> u "ai") by (vm_compute; discriminate).
  assert (H2 : snd (snd (generateOrderSummary (world_unauthorized (u "sk-bad") [])
                           scenario7_desc)) <> u "ai") by (vm_compute; discriminate).
  split; [exact H1 | split; [exact H2 |]].
  exact (fallback_indistinguishable _ _ _ H1 H2).
Defined.

Lemma ai_summary_trimmed_witness :
  snd (snd (generateOrderSummary (world_ok (u "sk-test") [] [u "  Order #7 is ready.  "])
              scenario7_desc)) = u "ai" /\
  fst (snd (generateOrderSummary (world_ok (u "sk-test") [] [u "  Order #7 is ready.  "])
              scenario7_desc)) = u "Order #7 is ready." /\
  is_space (hd 0 (fst (snd (generateOrderSummary
                              (world_ok (u "sk-test") [] [u "  Order #7 is ready.  "])
                              scenario7_desc)))) = false.
Proof.
  assert (H : snd (snd (generateOrderSummary
                          (world_ok (u "sk-test") [] [u "  Order #7 is ready.  "])
                          scenario7_desc)) = u "ai") by (vm_compute; reflexivity).
  destruct (ai_summary_trimmed _ _ H) as [_ [_ [H3 _]]].
  split; [exact H | split; [vm_compute; reflexivity | exact H3]].
Defined.

(** The address/time rendering scenario: a literal address, and the
    ["(none)"] placeholders. *)
Lemma orderDescription_address_segment_witness :
  orderDescription 3 (u "DELIVERY") (mkNullString (u "1 Market St") true)
    (mkNullTime (mkTime 2030 6 1 12 30 0 0) true) scenario_created
  = u "Order number: 3. Preference: DELIVERY. Address: 1 Market St. Pickup time: 2030-06-01T12:30:00Z. Creation date: 2025-01-01T00:00:00Z" /\
  orderDescription 7 (u "IN_STORE") (mkNullString [] false) no_time scenario_created
  = u "Order number: 7. Preference: IN STORE. Address: (none). Pickup time: (none). Creation date: 2025-01-01T00:00:00Z".
Proof.
  destruct (orderDescription_address_segment 3 (u "DELIVERY")
              (mkNullString (u "1 Market St") true)
              (mkNullTime (mkTime 2030 6 1 12 30 0 0) true) scenario_created) as [H1 _].
  destruct (orderDescription_address_segment 7 (u "IN_STORE") (mkNullString [] false)
              no_time scenario_created) as [_ H2].
  split.
  - rewrite H1; [vm_compute; reflexivity | reflexivity | discriminate].
  - rewrite H2; [vm_compute; reflexivity | left; reflexivity].
Defined.

(** The multi-part reply ["Hello, "] + ["your order is ready."]. *)
Lemma callGemini_joins_parts_witness :
  snd (callGemini (world_ok [] (u "gemini-key") [u "Hello, "; u "your order is ready."])
         (promptOf scenario7_desc) (u "gemini-key"))
  = (u "Hello, your order is ready.", None).
Proof.
  destruct (callGemini_joins_parts
              (world_ok [] (u "gemini-key") [u "Hello, "; u "your order is ready."])
              (promptOf scenario7_desc) (u "gemini-key")
              (mkResponse 200 (u "200 OK") (reply_body [u "Hello, "; u "your order is ready."]))
              (mkGeminiGenerateContentResponse
                 [mkGeminiCandidate (mkGeminiContent
                    (map mkGeminiPart [u "Hello, "; u "your order is ready."]))] None))
    as [H _].
  - vm_compute. discriminate.
  - vm_compute. reflexivity.
  - reflexivity.
  - reflexivity.
  - reflexivity.
  - rewrite H. vm_compute. reflexivity.
Defined.

(** A credential of a tab and a space. *)
Lemma adapters_credential_trimmed_witness :
  callOpenAI (world_ok [] [] [u "x"]) (u "p") [9; 32]
    = ([], ([], Some (u "openai: empty API key"))) /\
  callGemini (world_ok [] [] [u "x"]) (u "p") [9; 32]
    = ([], ([], Some (u "gemini: missing GEMINI_API_KEY"))).
Proof.
  destruct (adapters_credential_trimmed (world_ok [] [] [u "x"]) (u "p") [9; 32])
    as [_ [_ H]].
  apply H. vm_compute. reflexivity.
Defined.

(* ------------------------------------------------------------------ *)
(** ** Lemmas on the handler layer *)

Lemma gostring_eqb_true : forall a b : gostring, eqb a b = true <-> a = b.
Proof. intros a b. unfold eqb. destruct (list_eq_dec Z.eq_dec a b); split; congruence. Qed.

Lemma gostring_eqb_false : forall a b : gostring, eqb a b = false <-> a <> b.
Proof. intros a b. unfold eqb. destruct (list_eq_dec Z.eq_dec a b); split; congruence. Qed.

Lemma OrderSummary_found : forall w id preference address pickupTime createdAt,
  bind (orderSummaryReply w id preference address pickupTime createdAt)
       (fun members => ret (HttpOk 200 members))
  = let r := generateOrderSummary w
               (orderDescription id preference address pickupTime createdAt) in
    (fst r, HttpOk 200 (json_members (mkOrderSummaryResponse (fst (snd r)) (snd (snd r))))).
Proof.
  intros. unfold orderSummaryReply. cbv zeta. rewrite !bind_pair.
  destruct (generateOrderSummary w _) as [tr [s src]]. cbn. rewrite !app_nil_r. reflexivity.
Qed.

Lemma orderDescription_response : forall id userID p a pt ca,
  orderDescription id p a pt ca =
  description_of_response
    (orderToResponse id userID p (if ns_Valid a then Some (ns_String a) else None)
       (if nt_Valid pt then Some (FormatRFC3339 (nt_Time pt)) else None) ca).
Proof.
  intros. unfold orderDescription, description_of_response, orderToResponse.
  cbn [or_ID or_Preference or_Address or_PickupTime or_CreatedAt].
  rewrite ReplaceAll_underscore.
  destruct a as [s [|]], pt as [t [|]]; cbn [ns_Valid ns_String nt_Valid nt_Time andb];
    try (destruct (is_empty s)); cbn [negb]; rewrite <- ?app_assoc; reflexivity.
Qed.

Lemma OrderSummary_not_401 : forall w db userID idStr body,
  snd (OrderSummary w db (Some userID) idStr) <> HttpError 401 body.
Proof.
  intros. unfold OrderSummary, orderSummaryReply. cbv zeta.
  destruct (Atoi idStr) as [id|]; [|cbn; discriminate].
  destruct (id <? 1); [cbn; discriminate|].
  destruct (db id userID); cbn; try discriminate.
  rewrite !bind_pair. destruct (generateOrderSummary _ _) as [tr [s src]]. cbn. discriminate.
Qed.

Lemma prefixb_app : forall p s, prefixb p (p ++ s) = true.
Proof. induction p as [|a p IH]; intros s; cbn; [reflexivity|]. rewrite Z.eqb_refl, IH. reflexivity. Qed.

Lemma skipn_app_length : forall (p s : gostring), skipn (List.length p) (p ++ s) = s.
Proof. induction p as [|a p IH]; intros s; cbn; auto. Qed.

Lemma replace_all_fuel_quote : forall s f, (List.length s <= f)%nat ->
  replace_all_fuel f dq ([92] ++ dq) s = escape_quotes s.
Proof.
  induction s as [|r s IH]; intros f Hf; destruct f; cbn [List.length] in Hf; try lia;
    try reflexivity.
  cbn [replace_all_fuel escape_quotes flat_map]. unfold dq. cbn [prefixb].
  rewrite andb_true_r, Z.eqb_sym.
  destruct (r =? 34); cbn [app List.length skipn]; rewrite IH by lia; reflexivity.
Qed.

Lemma prefixb_dq_escape : forall s, prefixb dq (escape_quotes s) = false.
Proof.
  destruct s as [|r s]; [reflexivity|]. unfold escape_quotes. cbn [flat_map].
  destruct (r =? 34) eqn:E; [reflexivity|]. cbn [app]. unfold dq. cbn [prefixb].
  rewrite andb_true_r, Z.eqb_sym, E. reflexivity.
Qed.

Lemma unescape_fuel : forall s f, (List.length (escape_quotes s) <= f)%nat ->
  replace_all_fuel f [92; 34] [34] (escape_quotes s) = s.
Proof.
  induction s as [|r s IH]; intros f Hf; [destruct f; reflexivity|].
  change (escape_quotes (r :: s))
    with ((if r =? 34 then [92; 34] else [r]) ++ escape_quotes s) in *.
  destruct (r =? 34) eqn:E.
  - apply Z.eqb_eq in E. subst. destruct f; cbn [List.length app] in Hf; [lia|].
    change (replace_all_fuel (S f) [92; 34] [34] ([92; 34] ++ escape_quotes s))
      with ([34] ++ replace_all_fuel f [92; 34] [34] (escape_quotes s)).
    rewrite IH by lia. reflexivity.
  - destruct f; cbn [List.length app] in Hf; [lia|]. cbn [app replace_all_fuel].
    assert (Hp : prefixb [92; 34] (r :: escape_quotes s) = false).
    { cbn [prefixb]. destruct (92 =? r); cbn [andb]; [|reflexivity].
      exact (prefixb_dq_escape s). }
    unfold rune in *. rewrite Hp. rewrite IH by lia. reflexivity.
Qed.

Lemma callOpenAI_requests : forall w p k r,
  In r (requests (fst (callOpenAI w p k))) -> r = openai_request_for p (TrimSpace k).
Proof.
  intros w p k r. unfold callOpenAI, bind, client_Do, ret, openai_request_for.
  destruct (TrimSpace k) as [|r0 k'] eqn:Ek; cbn -[TrimSpace Itoa u]; [intros []|].
  case_code; cbn -[TrimSpace Itoa u]; intros [<-|[]]; reflexivity.
Qed.

Lemma callGemini_requests : forall w p k r,
  In r (requests (fst (callGemini w p k))) -> r = gemini_request_for p (TrimSpace k).
Proof.
  intros w p k r. unfold callGemini, bind, client_Do, ret, gemini_request_for.
  destruct (TrimSpace k) as [|r0 k'] eqn:Ek; cbn -[TrimSpace Itoa u]; [intros []|].
  case_code; cbn -[TrimSpace Itoa u]; first [intros [Hr|[]]; subst r; reflexivity | intros []].
Qed.

(* ------------------------------------------------------------------ *)
(** ** Properties of the handlers, the middleware and the adapters *)

(** [OrderSummary] writes no log and sends no provider request unless the
    caller is authenticated, the path id is a valid integer of at least 1 and
    the order row of that id and that caller was found. *)
Theorem OrderSummary_effects_need_row : forall w db ctxUser idStr,
  fst (OrderSummary w db ctxUser idStr) <> [] ->
  exists userID id preference address pickupTime createdAt,
    ctxUser = Some userID /\ Atoi idStr = Some id /\ 1 <= id /\
    db id userID = RowFound preference address pickupTime createdAt.
Proof.
  intros w db ctxUser idStr H. unfold OrderSummary in H.
  destruct ctxUser as [userID|]; [|contradiction].
  destruct (Atoi idStr) as [id|] eqn:Ei; [|contradiction].
  destruct (id <? 1) eqn:Elt; [contradiction|]. apply Z.ltb_ge in Elt.
  destruct (db id userID) eqn:Edb; try contradiction.
  do 6 eexists. repeat split; eauto.
Qed.

(** The only row [OrderSummary] reads is the one keyed by the parsed id and
    the caller's user id: two order tables agreeing there give the same
    trace and reply. *)
Theorem OrderSummary_reads_only_callers_row : forall w db1 db2 userID idStr id,
  Atoi idStr = Some id ->
  db1 id userID = db2 id userID ->
  OrderSummary w db1 (Some userID) idStr = OrderSummary w db2 (Some userID) idStr.
Proof.
  intros w db1 db2 userID idStr id Ei Edb. unfold OrderSummary. rewrite Ei, Edb. reflexivity.
Qed.

(** [GET /orders/{id}/summary] fails exactly as [GET /orders/{id}] does: same
    status and body on every error path. *)
Theorem GetOrder_OrderSummary_same_errors : forall w db ctxUser idStr status body,
  snd (OrderSummary w db ctxUser idStr) = HttpError status body <->
  GetOrder db ctxUser idStr = HttpError status body.
Proof.
  intros. unfold OrderSummary, GetOrder.
  destruct ctxUser as [userID|]; [|cbn; split; intros H; inversion H; reflexivity].
  destruct (Atoi idStr) as [id|]; [|cbn; split; intros H; inversion H; reflexivity].
  destruct (id <? 1); [cbn; split; intros H; inversion H; reflexivity|].
  destruct (db id userID); try (cbn; split; intros H; inversion H; reflexivity).
  rewrite OrderSummary_found. cbn. split; discriminate.
Qed.

(** When [GetOrder] returns an order, [OrderSummary] for the same caller and
    path summarises the description read off that response (an absent or
    empty address, and an absent pickup time, shown as ["(none)"]). *)
Theorem OrderSummary_of_GetOrder_response : forall w db userID idStr resp,
  GetOrder db (Some userID) idStr = HttpOk 200 resp ->
  OrderSummary w db (Some userID) idStr =
    (let r := generateOrderSummary w (description_of_response resp) in
     (fst r, HttpOk 200 (json_members (mkOrderSummaryResponse (fst (snd r)) (snd (snd r)))))).
Proof.
  intros w db userID idStr resp H. unfold GetOrder in H. unfold OrderSummary.
  destruct (Atoi idStr) as [id|]; [|discriminate].
  destruct (id <? 1); [discriminate|].
  destruct (db id userID) as [p a pt ca| |e]; try discriminate.
  injection H as <-. rewrite OrderSummary_found.
  rewrite (orderDescription_response id userID). reflexivity.
Qed.

(** Through [RequireAuth], a request whose [Authorization] header lacks the
    ["Bearer "] prefix, or whose token the parser rejects, gets 401 and the
    handler does not run: no log, no provider request. *)
Theorem summaryRoute_rejects_unauthenticated : forall w db parseJWT authHeader idStr,
  prefixb (u "Bearer ") authHeader = false \/
  parseJWT (TrimPrefix authHeader (u "Bearer ")) = None ->
  summaryRoute w db parseJWT authHeader idStr = ([], HttpError 401 (json_error "unauthorized")).
Proof.
  intros w db parseJWT authHeader idStr H. unfold summaryRoute, RequireAuth. cbv zeta.
  destruct (is_empty authHeader) eqn:E; cbn [orb]; [reflexivity|].
  destruct H as [H|H]; rewrite ?H; cbn [negb]; [reflexivity|].
  destruct (negb _); reflexivity.
Qed.

(** [RequireAuth] hands the text after ["Bearer "] to the token parser and
    runs [OrderSummary] with the user id of the accepted token. *)
Theorem summaryRoute_bearer_token : forall w db parseJWT tok idStr userID,
  parseJWT tok = Some userID ->
  summaryRoute w db parseJWT (u "Bearer " ++ tok) idStr = OrderSummary w db (Some userID) idStr.
Proof.
  intros w db parseJWT tok idStr userID H. unfold summaryRoute, RequireAuth, TrimPrefix.
  rewrite prefixb_app, skipn_app_length, H. reflexivity.
Qed.

(** Behind [RequireAuth] every 401 of the summary route comes from the
    middleware: [OrderSummary]'s own unauthorized branch is unreachable. *)
Theorem summaryRoute_401_only_from_middleware : forall w db parseJWT authHeader idStr body,
  snd (summaryRoute w db parseJWT authHeader idStr) = HttpError 401 body ->
  fst (summaryRoute w db parseJWT authHeader idStr) = [] /\
  (prefixb (u "Bearer ") authHeader = false \/
   parseJWT (TrimPrefix authHeader (u "Bearer ")) = None).
Proof.
  intros w db parseJWT authHeader idStr body H.
  unfold summaryRoute, RequireAuth in *. cbv zeta in *.
  destruct (is_empty authHeader) eqn:E.
  - destruct authHeader; [|discriminate]. cbn. auto.
  - cbn [orb] in *. destruct (prefixb (u "Bearer ") authHeader) eqn:P; cbn [negb] in *; [|auto].
    destruct (parseJWT (TrimPrefix authHeader (u "Bearer "))) eqn:J; [|auto].
    exfalso. exact (OrderSummary_not_401 _ _ _ _ _ H).
Qed.

(** An [IN_STORE] order passes [validateOrder] whatever its address and
    pickup time, even an unparsable one. *)
Theorem validateOrder_in_store_always_valid : forall tl address pickupTime,
  validateOrder tl (mkOrderRequest PrefInStore address pickupTime) = None.
Proof. intros. reflexivity. Qed.

(** An unknown preference is reported before any other check. *)
Theorem validateOrder_preference_checked_first : forall tl req,
  validPrefs (rq_Preference req) = false ->
  validateOrder tl req = Some (u "preference must be IN_STORE, DELIVERY, or CURBSIDE").
Proof. intros tl req H. unfold validateOrder. rewrite H. reflexivity. Qed.

(** A [DELIVERY] or [CURBSIDE] order with a missing or whitespace-only
    address is reported as such, whatever its pickup time. *)
Theorem validateOrder_address_checked_before_pickup : forall tl preference address pickupTime,
  preference = PrefDelivery \/ preference = PrefCurbside ->
  match address with None => True | Some a => TrimSpace a = [] end ->
  validateOrder tl (mkOrderRequest preference address pickupTime)
  = Some (u "address required for DELIVERY and CURBSIDE").
Proof.
  intros tl p a pt Hp Ha. unfold validateOrder. cbn [rq_Preference rq_Address rq_PickupTime].
  destruct a as [a|].
  - destruct Hp as [-> | ->]; cbn -[TrimSpace]; rewrite Ha; reflexivity.
  - destruct Hp as [-> | ->]; reflexivity.
Qed.

(** [validateOrder] accepts exactly the [IN_STORE] orders and the
    [DELIVERY] or [CURBSIDE] orders with a non-blank address and a non-empty
    pickup time that parses as RFC 3339 and lies after now. *)
Theorem validateOrder_accepts_iff : forall tl req,
  validateOrder tl req = None <->
  rq_Preference req = PrefInStore \/
  ((rq_Preference req = PrefDelivery \/ rq_Preference req = PrefCurbside) /\
   (exists a, rq_Address req = Some a /\ TrimSpace a <> []) /\
   (exists p t, rq_PickupTime req = Some p /\ p <> [] /\
                ParseRFC3339 tl p = Some t /\ After tl t (Now tl) = true)).
Proof.
  intros tl [pref a pt]. cbn [rq_Preference rq_Address rq_PickupTime].
  destruct (eqb pref PrefInStore) eqn:E1.
  { apply gostring_eqb_true in E1. subst. split; [auto|]. intros _. reflexivity. }
  apply gostring_eqb_false in E1.
  assert (Hnot : forall q, q = PrefDelivery \/ q = PrefCurbside ->
     validateOrder tl (mkOrderRequest q a pt) = None <->
     (exists s, a = Some s /\ TrimSpace s <> []) /\
     (exists p t, pt = Some p /\ p <> [] /\ ParseRFC3339 tl p = Some t /\ After tl t (Now tl) = true)).
  { intros q Hq. unfold validateOrder. cbn [rq_Preference rq_Address rq_PickupTime].
    assert (Hv : validPrefs q = true) by (destruct Hq as [->| ->]; reflexivity).
    assert (Hdc : (eqb q PrefDelivery || eqb q PrefCurbside) = true)
      by (destruct Hq as [->| ->]; reflexivity).
    assert (Hi : eqb q PrefInStore = false) by (destruct Hq as [->| ->]; reflexivity).
    rewrite Hv, Hdc, Hi. cbn [negb andb].
    destruct a as [s|].
    2: { split; [discriminate|]. intros [[s' [Hs' _]] _]. discriminate. }
    destruct (is_empty (TrimSpace s)) eqn:Es.
    { apply is_empty_true in Es. split; [discriminate|].
      intros [[s' [Hs' Hn]] _]. injection Hs' as <-. contradiction. }
    apply is_empty_false in Es.
    destruct pt as [p|].
    2: { split; [discriminate|]. intros [_ [p [t [Hp _]]]]. discriminate. }
    destruct (is_empty p) eqn:Ep.
    { apply is_empty_true in Ep. subst. split; [discriminate|].
      intros [_ [p [t [Hp [Hn _]]]]]. injection Hp as <-. contradiction. }
    apply is_empty_false in Ep.
    destruct (ParseRFC3339 tl p) as [t|] eqn:Et.
    2: { split; [discriminate|]. intros [_ [p' [t [Hp [_ [Ht _]]]]]].
         injection Hp as <-. congruence. }
    destruct (After tl t (Now tl)) eqn:Ea; cbn [negb].
    - split; [intros _; split; eauto 8|reflexivity].
    - split; [discriminate|]. intros [_ [p' [t' [Hp [_ [Ht Ha]]]]]].
      injection Hp as <-. congruence. }
  destruct (eqb pref PrefDelivery) eqn:E2.
  { apply gostring_eqb_true in E2. subst. rewrite Hnot by auto. intuition. }
  destruct (eqb pref PrefCurbside) eqn:E3.
  { apply gostring_eqb_true in E3. subst. rewrite Hnot by auto. intuition. }
  apply gostring_eqb_false in E2, E3.
  unfold validateOrder. cbn [rq_Preference].
  assert (Hv : validPrefs pref = false).
  { unfold validPrefs. apply gostring_eqb_false in E1, E2, E3. rewrite E1, E2, E3. reflexivity. }
  rewrite Hv. split; [discriminate|]. intros [H|[[H|H] _]]; contradiction.
Qed.

(** [escapeJSON] puts a backslash before every double quote and changes
    nothing else; replacing each backslash-quote by a quote gives the input
    back. *)
Theorem escapeJSON_round_trip : forall s,
  escapeJSON s = escape_quotes s /\ ReplaceAll (escapeJSON s) ([92] ++ dq) dq = s.
Proof.
  intros s. assert (He : escapeJSON s = escape_quotes s).
  { unfold escapeJSON, ReplaceAll, dq. apply replace_all_fuel_quote. lia. }
  split; [exact He|]. rewrite He. unfold ReplaceAll. cbn [app].
  apply unescape_fuel. lia.
Qed.

(** [Login] answers an unknown email and a wrong password identically. *)
Theorem Login_no_user_enumeration : forall be1 be2 method req id hash,
  UserByEmail be1 (Email req) = UserNoRows ->
  UserByEmail be2 (Email req) = UserFound id hash ->
  CompareHashAndPassword be2 hash (Password req) = false ->
  Login be1 method (DecodeOk req) = Login be2 method (DecodeOk req).
Proof.
  intros be1 be2 method req id hash H1 H2 H3. unfold Login.
  destruct (negb _); [reflexivity|]. destruct (_ || _); [reflexivity|].
  rewrite H1, H2, H3. reflexivity.
Qed.

(** [Login] issues a token only for a POST with a decodable body, non-empty
    email and password, and an existing user whose hash matches the
    password; the token is the one signed for that user's id. *)
Theorem Login_token_only_for_verified_user : forall be method body resp,
  Login be method body = HttpOk 200 resp ->
  method = u "POST" /\
  exists req id hash,
    body = DecodeOk req /\ Email req <> [] /\ Password req <> [] /\
    UserByEmail be (Email req) = UserFound id hash /\
    CompareHashAndPassword be hash (Password req) = true /\
    SignToken be id = Some (Token resp).
Proof.
  intros be method body resp H. unfold Login in H.
  destruct (eqb method (u "POST")) eqn:Em; cbn [negb] in H; [|discriminate].
  apply gostring_eqb_true in Em. split; [exact Em|].
  destruct body as [req|e]; [|discriminate].
  destruct (is_empty (Email req)) eqn:E1; [discriminate|].
  destruct (is_empty (Password req)) eqn:E2; cbn [orb] in H; [discriminate|].
  apply is_empty_false in E1, E2.
  destruct (UserByEmail be (Email req)) as [id hash| |e] eqn:Eu; try discriminate.
  destruct (CompareHashAndPassword be hash (Password req)) eqn:Ec; cbn [negb] in H; [|discriminate].
  destruct (SignToken be id) as [signed|] eqn:Es; [|discriminate].
  injection H as <-. exists req, id, hash. repeat split; auto.
Qed.

(** A POST with an empty email or password is rejected with 400 whatever the
    user table holds. *)
Theorem Login_empty_credentials_rejected : forall be req,
  Email req = [] \/ Password req = [] ->
  Login be (u "POST") (DecodeOk req) = HttpError 400 (json_error "email and password required").
Proof.
  intros be req H. unfold Login. cbn [negb eqb].
  destruct H as [H|H]; rewrite H; [reflexivity|]. rewrite orb_true_r. reflexivity.
Qed.

(** Every request [generateOrderSummary] sends carries the full prompt, the
    token cap and the timeout: to OpenAI with the trimmed [OPENAI_API_KEY] in
    the [Authorization] header, or, only when [OPENAI_API_KEY] is empty, to
    Gemini with the trimmed [GEMINI_API_KEY] in the URL query and no
    [Authorization] header. *)
Theorem generateOrderSummary_wire_requests : forall w d r,
  In r (requests (fst (generateOrderSummary w d))) ->
  (r = openai_request_for (promptOf d) (TrimSpace (Getenv w "OPENAI_API_KEY")) /\
   TrimSpace (Getenv w "OPENAI_API_KEY") <> []) \/
  (r = gemini_request_for (promptOf d) (TrimSpace (Getenv w "GEMINI_API_KEY")) /\
   Getenv w "OPENAI_API_KEY" = [] /\ TrimSpace (Getenv w "GEMINI_API_KEY") <> []).
Proof.
  intros w d r Hin.
  destruct (generateOrderSummary_cases w d) as [HA [HB HN]]. cbv zeta in HA, HB, HN.
  destruct (is_empty (Getenv w "OPENAI_API_KEY")) eqn:EA;
    [destruct (is_empty (Getenv w "GEMINI_API_KEY")) eqn:EB|].
  - rewrite (HN eq_refl eq_refl) in Hin. destruct Hin.
  - destruct (HB eq_refl eq_refl) as [_ Hr]. rewrite Hr in Hin. right.
    apply is_empty_true in EA. split; [|split]; [exact (callGemini_requests _ _ _ _ Hin)|exact EA|].
    intros Hb. rewrite (callGemini_blank_key _ _ _ Hb) in Hin. destruct Hin.
  - destruct (HA eq_refl) as [_ Hr]. rewrite Hr in Hin. left.
    split; [exact (callOpenAI_requests _ _ _ _ Hin)|].
    intros Hb. rewrite (callOpenAI_blank_key _ _ _ Hb) in Hin. destruct Hin.
Qed.

(** [callGemini] decodes the body before looking at the status: a body that
    does not decode yields the decoding error, whatever the status code. *)
Theorem callGemini_decode_error_before_status : forall w p k resp e,
  TrimSpace k <> [] ->
  NewRequest_error (geminiGenerateContentURL ++ u "?key=" ++ TrimSpace k) = None ->
  RoundTrip w (gemini_request_for p (TrimSpace k)) = DoOk resp ->
  as_gemini (Body resp) = DecodeErr e ->
  callGemini w p k = ([EvRequest (gemini_request_for p (TrimSpace k))], ([], Some e)).
Proof.
  intros w p k resp e Hk Hu Hrt Hd. unfold callGemini. cbv zeta.
  destruct (TrimSpace k) as [|r0 k'] eqn:Ek; [contradiction|]. cbn [is_empty].
  rewrite Hu. unfold bind, client_Do. unfold gemini_request_for in Hrt.
  rewrite Hrt. cbn [fst snd]. rewrite Hd. reflexivity.
Qed.

(** On a non-200 reply [callOpenAI] fails with ["openai <code>: <msg>"],
    [msg] the error envelope's message or else the status line, without
    reading the success body. *)
Theorem callOpenAI_non200_error : forall w p k resp,
  TrimSpace k <> [] ->
  RoundTrip w (openai_request_for p (TrimSpace k)) = DoOk resp ->
  StatusCode resp <> 200 ->
  callOpenAI w p k =
    ([EvRequest (openai_request_for p (TrimSpace k))],
     ([], Some (u "openai " ++ Itoa (StatusCode resp) ++ u ": " ++
                (if is_empty (oe_Message (as_openai_error (Body resp)))
                 then Status resp else oe_Message (as_openai_error (Body resp)))))).
Proof.
  intros w p k resp Hk Hrt Hs. unfold callOpenAI. cbv zeta.
  destruct (TrimSpace k) as [|r0 k'] eqn:Ek; [contradiction|]. cbn [is_empty].
  unfold bind, client_Do. unfold openai_request_for in Hrt.
  rewrite Hrt. apply Z.eqb_neq in Hs. rewrite Hs. reflexivity.
Qed.

(* ------------------------------------------------------------------ *)
(** ** Witnesses for the handler layer *)

(** Order 7 of user 1 found, an OpenAI key set: the handler logs and calls. *)
Lemma OrderSummary_effects_need_row_witness :
  exists userID id preference address pickupTime createdAt,
    Some 1 = Some userID /\ Atoi (u "7") = Some id /\ 1 <= id /\
    db_one 7 1 row_delivery id userID = RowFound preference address pickupTime createdAt.
Proof.
  apply (OrderSummary_effects_need_row (world_ok (u "sk-test") [] [u "Order 7 is on its way."])
           (db_one 7 1 row_delivery) (Some 1) (u "7")).
  vm_compute. discriminate.
Defined.

(** A second table that also holds another user's row and a failing lookup
    for user 2 leaves user 1's summary unchanged. *)
Lemma OrderSummary_reads_only_callers_row_witness :
  OrderSummary (world_down (u "sk-test") []) (db_one 7 1 row_delivery) (Some 1) (u "+07")
  = OrderSummary (world_down (u "sk-test") [])
      (fun i uid => if uid =? 2 then RowErr (u "conn reset") else db_one 7 1 row_delivery i uid)
      (Some 1) (u "+07").
Proof.
  apply (OrderSummary_reads_only_callers_row _ _ _ 1 (u "+07") 7); reflexivity.
Defined.

Lemma GetOrder_OrderSummary_same_errors_witness :
  snd (OrderSummary (world_ok [] [] []) (db_one 7 1 row_delivery) (Some 2) (u "7"))
  = HttpError 404 (json_error "not found").
Proof.
  apply (proj2 (GetOrder_OrderSummary_same_errors (world_ok [] [] [])
                  (db_one 7 1 row_delivery) (Some 2) (u "7") 404 (json_error "not found"))).
  reflexivity.
Defined.

Lemma OrderSummary_of_GetOrder_response_witness :
  let resp := orderToResponse 7 1 (u "DELIVERY") (Some (u "1 Main St"))
                (Some (FormatRFC3339 (mkTime 2025 1 2 10 30 0 0))) scenario_created in
  let w := world_ok [] (u "g-key") [u "Order 7 "; u "is on its way."] in
  OrderSummary w (db_one 7 1 row_delivery) (Some 1) (u "7") =
    (let r := generateOrderSummary w (description_of_response resp) in
     (fst r, HttpOk 200 (json_members (mkOrderSummaryResponse (fst (snd r)) (snd (snd r)))))).
Proof.
  intros resp w.
  apply (OrderSummary_of_GetOrder_response w (db_one 7 1 row_delivery) 1 (u "7") resp).
  vm_compute. reflexivity.
Defined.

Lemma summaryRoute_rejects_unauthenticated_witness :
  summaryRoute (world_ok (u "sk-test") [] [u "x"]) (db_one 7 1 row_delivery) jwt_tok
    (u "Basic dG9rOg==") (u "7") = ([], HttpError 401 (json_error "unauthorized")).
Proof.
  apply summaryRoute_rejects_unauthenticated. left. reflexivity.
Defined.

Lemma summaryRoute_bearer_token_witness :
  summaryRoute (world_down [] []) (db_one 7 1 row_delivery) jwt_tok (u "Bearer " ++ u "tok") (u "7")
  = OrderSummary (world_down [] []) (db_one 7 1 row_delivery) (Some 1) (u "7").
Proof.
  apply summaryRoute_bearer_token. reflexivity.
Defined.

Lemma summaryRoute_401_only_from_middleware_witness :
  fst (summaryRoute (world_down [] []) (db_one 7 1 row_delivery) jwt_tok (u "Bearer bad") (u "7")) = [] /\
  (prefixb (u "Bearer ") (u "Bearer bad") = false \/
   jwt_tok (TrimPrefix (u "Bearer bad") (u "Bearer ")) = None).
Proof.
  apply (summaryRoute_401_only_from_middleware _ _ _ _ _ (json_error "unauthorized")).
  vm_compute. reflexivity.
Defined.

Lemma validateOrder_preference_checked_first_witness :
  validateOrder clock_2026 (mkOrderRequest (u "PICKUP") None None)
  = Some (u "preference must be IN_STORE, DELIVERY, or CURBSIDE").
Proof.
  apply validateOrder_preference_checked_first. reflexivity.
Defined.

Lemma validateOrder_address_checked_before_pickup_witness :
  validateOrder clock_2026 (mkOrderRequest PrefCurbside (Some (u "   ")) (Some (u "yesterday")))
  = Some (u "address required for DELIVERY and CURBSIDE").
Proof.
  apply validateOrder_address_checked_before_pickup; [right; reflexivity | reflexivity].
Defined.

Lemma validateOrder_accepts_iff_witness :
  validateOrder clock_2026
    (mkOrderRequest PrefDelivery (Some (u "1 Main St")) (Some (u "2030-01-01T10:00:00Z")))
  = None.
Proof.
  apply (proj2 (validateOrder_accepts_iff clock_2026 _)). right. split; [left; reflexivity|].
  split.
  - exists (u "1 Main St"). split; [reflexivity|]. vm_compute. discriminate.
  - exists (u "2030-01-01T10:00:00Z"), (mkTime 2030 1 1 10 0 0 0).
    split; [reflexivity|]. split; [discriminate|]. split; reflexivity.
Defined.

Lemma Login_no_user_enumeration_witness :
  Login backend_none (u "POST") (DecodeOk (mkLoginRequest (u "a@b.c") (u "guess")))
  = Login backend_one (u "POST") (DecodeOk (mkLoginRequest (u "a@b.c") (u "guess"))).
Proof.
  apply (Login_no_user_enumeration _ _ _ _ 1 (u "$2a$hash")); reflexivity.
Defined.

Lemma Login_token_only_for_verified_user_witness :
  u "POST" = u "POST" /\
  exists req id hash,
    DecodeOk (mkLoginRequest (u "a@b.c") (u "pw")) = DecodeOk req /\
    Email req <> [] /\ Password req <> [] /\
    UserByEmail backend_one (Email req) = UserFound id hash /\
    CompareHashAndPassword backend_one hash (Password req) = true /\
    SignToken backend_one id = Some (Token (mkLoginResponse (u "signed." ++ Itoa 1))).
Proof.
  apply Login_token_only_for_verified_user. vm_compute. reflexivity.
Defined.

Lemma Login_empty_credentials_rejected_witness :
  Login backend_one (u "POST") (DecodeOk (mkLoginRequest (u "a@b.c") []))
  = HttpError 400 (json_error "email and password required").
Proof.
  apply Login_empty_credentials_rejected. right. reflexivity.
Defined.

Lemma generateOrderSummary_wire_requests_witness :
  let w := world_ok (u " sk-test ") (u "g-key") [u "Hi"] in
  let r := openai_request_for (promptOf scenario7_desc) (u "sk-test") in
  (r = openai_request_for (promptOf scenario7_desc) (TrimSpace (Getenv w "OPENAI_API_KEY")) /\
   TrimSpace (Getenv w "OPENAI_API_KEY") <> []) \/
  (r = gemini_request_for (promptOf scenario7_desc) (TrimSpace (Getenv w "GEMINI_API_KEY")) /\
   Getenv w "OPENAI_API_KEY" = [] /\ TrimSpace (Getenv w "GEMINI_API_KEY") <> []).
Proof.
  intros w r. apply (generateOrderSummary_wire_requests w scenario7_desc r).
  vm_compute. left. reflexivity.
Defined.

Lemma callGemini_decode_error_before_status_witness :
  callGemini world_gemini_html (promptOf scenario7_desc) (u "g-key")
  = ([EvRequest (gemini_request_for (promptOf scenario7_desc) (TrimSpace (u "g-key")))],
     ([], Some (u "invalid character '<' looking for beginning of value"))).
Proof.
  apply (callGemini_decode_error_before_status _ _ _
           (mkResponse 503 (u "503 Service Unavailable") html_body)).
  - vm_compute. discriminate.
  - vm_compute. reflexivity.
  - reflexivity.
  - reflexivity.
Defined.

Lemma callOpenAI_non200_error_witness :
  callOpenAI (world_unauthorized (u "sk-bad") []) (promptOf scenario7_desc) (u "sk-bad")
  = ([EvRequest (openai_request_for (promptOf scenario7_desc) (TrimSpace (u "sk-bad")))],
     ([], Some (u "openai " ++ Itoa 401 ++ u ": " ++ u "Incorrect API key provided"))).
Proof.
  apply (callOpenAI_non200_error _ _ _
           (mkResponse 401 (u "401 Unauthorized")
              (mkResponseBody (mkOpenAIErrorBody (u "Incorrect API key provided") [])
                 (DecodeErr (u "unexpected EOF")) (DecodeErr (u "unexpected EOF"))))).
  - vm_compute. discriminate.
  - reflexivity.
  - discriminate.
Defined.
